(** * The Azure platform adaptee of autoscale-core: store access and API cache

    A shallow embedding of [src/fortigate-autoscale/azure/azure-platform-adaptee.ts]:
    the consistency-checked document store operations ([getItemFromDb],
    [saveItemToDb], [deleteItemFromDb]), the API cache ([generateCacheId],
    [apiRequestReadCache], [apiRequestDeleteCache], [apiRequestSaveCache]),
    the cache policy engine ([requestWithCaching]) and the instance facades
    ([listInstances], [describeInstance]).

    Asynchronous methods are modelled as computations in a state-and-exception
    monad over a [World] that holds the document store, the clocks and the log
    of calls made to the cloud APIs; a rejected promise is a thrown exception. *)

From Stdlib Require Import ZArith String Ascii List Bool Lia.
From stdpp Require Import base option list strings gmap fin_maps pretty.

Set Warnings "-register-all".

Local Open Scope Z_scope.
Local Open Scope string_scope.

(** ** JavaScript values *)

Module JS.

(** The values the adaptee handles.  Numbers are the integers the program
    computes with (epoch times, time-to-live values, status codes) and NaN;
    objects and arrays are immutable trees. *)
Inductive value : Type :=
| VUndef
| VNull
| VBool (b : bool)
| VNum (n : Z)
| VNaN
| VStr (s : string)
| VArr (elems : list value)
| VObj (fields : list (string * value)).

(** ToBoolean. *)
Definition truthy (v : value) : bool :=
  match v with
  | VUndef | VNull | VNaN => false
  | VBool b => b
  | VNum n => negb (Z.eqb n 0)
  | VStr s => negb (String.eqb s EmptyString)
  | VArr _ | VObj _ => true
  end.

(** [a || b] and [a && b] on values. *)
Definition or (a b : value) : value := if truthy a then a else b.
Definition and (a b : value) : value := if truthy a then b else a.

(** [a === b].  Two objects (or arrays) are equal only when they are the same
    reference; the operands compared by the adaptee are never the same
    reference, so such a comparison is false. *)
Definition strict_eq (a b : value) : bool :=
  match a, b with
  | VUndef, VUndef => true
  | VNull, VNull => true
  | VBool x, VBool y => Bool.eqb x y
  | VNum x, VNum y => Z.eqb x y
  | VStr x, VStr y => String.eqb x y
  | _, _ => false
  end.

(** Array.prototype.join. *)
Fixpoint join (sep : string) (l : list string) : string :=
  match l with
  | [] => EmptyString
  | [x] => x
  | x :: rest => x +:+ sep +:+ join sep rest
  end.

(** String(v).  Integers print in decimal. *)
Fixpoint String (v : value) : string :=
  match v with
  | VUndef => "undefined"
  | VNull => "null"
  | VBool true => "true"
  | VBool false => "false"
  | VNum n => pretty n
  | VNaN => "NaN"
  | VStr s => s
  | VArr l =>
      join "," (List.map (fun e => match e with
                                   | VUndef | VNull => EmptyString
                                   | _ => String e
                                   end) l)
  | VObj _ => "[object Object]"
  end.

(** *** Number(v)

    The numeric reading of a value, exact: NaN, an infinity, or the decimal
    [m * 10^e].  Strings follow the StringNumericLiteral grammar of
    ECMAScript on ASCII text: surrounding white space is dropped, the empty
    text is zero, [0x], [0o] and [0b] introduce unsigned integers, and a
    decimal is an optional sign, digits with an optional fraction, and an
    optional exponent.  A magnitude that rounds beyond the largest double
    is an infinity. *)
Inductive numeral : Type :=
| NumNaN
| NumInf
| NumDec (m e : Z).

Definition is_space (c : ascii) : bool :=
  let n := Z.of_N (N_of_ascii c) in
  (Z.leb 9 n && Z.leb n 13) || Z.eqb n 32.

Fixpoint drop_spaces (l : list ascii) : list ascii :=
  match l with
  | c :: r => if is_space c then drop_spaces r else l
  | [] => []
  end.

Definition trim (l : list ascii) : list ascii :=
  rev (drop_spaces (rev (drop_spaces l))).

Definition digit_of (base : Z) (c : ascii) : option Z :=
  let n := Z.of_N (N_of_ascii c) in
  let d :=
    if Z.leb 48 n && Z.leb n 57 then Some (n - 48)
    else if Z.leb 97 n && Z.leb n 102 then Some (n - 87)
    else if Z.leb 65 n && Z.leb n 70 then Some (n - 55)
    else None in
  match d with
  | Some k => if Z.ltb k base then Some k else None
  | None => None
  end.

(** Reads the longest run of digits: the number read (continuing [acc]), how
    many digits it had, and the text left. *)
Fixpoint read_digits (base acc count : Z) (l : list ascii) : Z * Z * list ascii :=
  match l with
  | c :: r =>
      match digit_of base c with
      | Some d => read_digits base (acc * base + d) (count + 1) r
      | None => (acc, count, l)
      end
  | [] => (acc, count, [])
  end.

Definition is_nil {A} (l : list A) : bool :=
  match l with [] => true | _ => false end.

Definition exponent_part (l : list ascii) : option Z :=
  match l with
  | [] => Some 0
  | c :: r =>
      if Ascii.eqb c "e" || Ascii.eqb c "E" then
        let '(sign, r') :=
          match r with
          | "+"%char :: r' => (1, r')
          | "-"%char :: r' => (-1, r')
          | _ => (1, r)
          end in
        let '(v, n, rest) := read_digits 10 0 0 r' in
        if Z.ltb 0 n && is_nil rest then Some (sign * v) else None
      else None
  end.

(** An unsigned decimal literal, as mantissa and power of ten. *)
Definition decimal_literal (l : list ascii) : option (Z * Z) :=
  let '(ip, ni, r1) := read_digits 10 0 0 l in
  match r1 with
  | "."%char :: r2 =>
      let '(m, nf, r3) := read_digits 10 ip 0 r2 in
      if Z.ltb 0 (ni + nf) then
        match exponent_part r3 with
        | Some e => Some (m, e - nf)
        | None => None
        end
      else None
  | _ =>
      if Z.ltb 0 ni then
        match exponent_part r1 with
        | Some e => Some (ip, e)
        | None => None
        end
      else None
  end.

(** Magnitudes from [2^1024 - 2^970] on round to an infinity. *)
Definition rounds_to_infinity (m e : Z) : bool :=
  let limit := 2 ^ 1024 - 2 ^ 970 in
  if Z.leb 0 e then Z.leb limit (Z.abs m * 10 ^ e)
  else Z.leb (limit * 10 ^ (- e)) (Z.abs m).

Definition classify (m e : Z) : numeral :=
  if rounds_to_infinity m e then NumInf else NumDec m e.

Definition radix_literal (base : Z) (l : list ascii) : numeral :=
  let '(v, n, rest) := read_digits base 0 0 l in
  if Z.ltb 0 n && is_nil rest then classify v 0 else NumNaN.

Definition signed_decimal (l : list ascii) : numeral :=
  let '(sign, body) :=
    match l with
    | "+"%char :: r => (1, r)
    | "-"%char :: r => (-1, r)
    | _ => (1, l)
    end in
  if String.eqb (string_of_list_ascii body) "Infinity" then NumInf
  else match decimal_literal body with
       | Some (m, e) => classify (sign * m) e
       | None => NumNaN
       end.

Definition StringToNumber (s : string) : numeral :=
  match trim (list_ascii_of_string s) with
  | [] => NumDec 0 0
  | ("0"%char :: p :: r) as l =>
      if Ascii.eqb p "x" || Ascii.eqb p "X" then radix_literal 16 r
      else if Ascii.eqb p "o" || Ascii.eqb p "O" then radix_literal 8 r
      else if Ascii.eqb p "b" || Ascii.eqb p "B" then radix_literal 2 r
      else signed_decimal l
  | l => signed_decimal l
  end.

Definition Number (v : value) : numeral :=
  match v with
  | VUndef | VNaN | VObj _ => NumNaN
  | VNull => NumDec 0 0
  | VBool b => NumDec (if b then 1 else 0) 0
  | VNum n => NumDec n 0
  | VStr s => StringToNumber s
  | VArr _ => StringToNumber (String v)
  end.

Definition isFinite (n : numeral) : bool :=
  match n with
  | NumDec _ _ => true
  | _ => false
  end.

(** [n === 0] for a number [n]; decimals of at most [2^-1075] round to zero. *)
Definition is_zero (n : numeral) : bool :=
  match n with
  | NumDec m e =>
      Z.eqb m 0 || (Z.ltb e 0 && Z.leb (Z.abs m * 2 ^ 1075) (10 ^ (- e)))
  | _ => false
  end.

(** *** Arithmetic

    The operands of the adaptee's arithmetic are number-typed fields; an
    operand whose numeric reading is not an integer is read as NaN here. *)
Definition ToNumber (v : value) : value :=
  match Number v with
  | NumDec m e =>
      if Z.leb 0 e then VNum (m * 10 ^ e)
      else if Z.eqb (m mod 10 ^ (- e)) 0 then VNum (m / 10 ^ (- e))
      else VNaN
  | _ => VNaN
  end.

Definition is_text (v : value) : bool :=
  match v with
  | VStr _ | VArr _ | VObj _ => true
  | _ => false
  end.

(** [a * b]. *)
Definition mul (a b : value) : value :=
  match ToNumber a, ToNumber b with
  | VNum x, VNum y => VNum (x * y)
  | _, _ => VNaN
  end.

(** [a + b]: concatenation as soon as one operand is a string (or converts
    to one), numeric addition otherwise. *)
Definition add (a b : value) : value :=
  if is_text a || is_text b then VStr (String a +:+ String b)
  else match ToNumber a, ToNumber b with
       | VNum x, VNum y => VNum (x + y)
       | _, _ => VNaN
       end.

(** [a > n] for a number [n]. *)
Definition gt_number (a : value) (n : Z) : bool :=
  match ToNumber a with
  | VNum x => Z.ltb n x
  | _ => false
  end.

(** Property access [o.name] on an object literal. *)
Fixpoint field (name : string) (fields : list (string * value)) : value :=
  match fields with
  | [] => VUndef
  | (k, v) :: rest => if String.eqb k name then v else field name rest
  end.

End JS.

Import JS.

(** ** Records of the document store *)

(** A database item or a stored document: a JavaScript object used as a map
    from field names to values. *)
Abbreviation Item := (gmap string value).

(** [item[name]]; a missing property reads as [undefined]. *)
Definition prop (item : Item) (name : string) : value :=
  default VUndef (item !! name).

(** Object.keys(item). *)
Definition Object_keys (item : Item) : list string :=
  (map_to_list item).*1.

(** ** Errors *)

Inductive DbErrorCode : Type :=
| NotFound
| KeyConflict
| InconsistentData
| UnexpectedResponse.

(** What an operation can throw: the three typed store errors, a plain
    [Error], and the runtime's own TypeError and SyntaxError. *)
Inductive exn : Type :=
| DbReadError (code : DbErrorCode)
| DbSaveError (code : DbErrorCode)
| DbDeleteError (code : DbErrorCode)
| Error (message : string)
| TypeError
| SyntaxError.

Inductive SaveCondition : Type :=
| InsertOnly
| UpdateOnly
| Upsert.

(** Modelled from the spec: the [Table] class of db-definitions, which is
    not among the sources.  A table descriptor gives the table's name, the
    name of its primary key, the validation of caller input (here the error
    it throws, if any), the conversion of a raw stored record to the table's
    record shape, and the [downcast] of an object literal to that shape. *)
Record Table : Type := {
  name : string;
  primaryKey : string;
  validateInput : Item -> option exn;
  convertRecord : Item -> Item;
  downcast : Item -> Item
}.

Record KeyValue : Type := { key : string; value_of : value }.

(** ** The world the adaptee runs in *)

(** Calls made to the Azure resource APIs. *)
Inductive OriginCall : Type :=
| VmssList (scalingGroupName : string)
| VmssGet (scalingGroupName id : string).

Record World : Type := {
  db : gmap string (gmap string Item);  (* containers by name, documents by id *)
  revision : Z;                         (* the store's revision counter *)
  server_time : Z;                      (* the store's clock, stamped on writes *)
  now : Z;                              (* Date.now() *)
  origin_calls : list OriginCall        (* oldest first *)
}.

Definition set_db (w : World) (d : gmap string (gmap string Item)) : World :=
  {| db := d; revision := revision w; server_time := server_time w;
     now := now w; origin_calls := origin_calls w |}.

Definition bump_revision (w : World) : World :=
  {| db := db w; revision := revision w + 1; server_time := server_time w;
     now := now w; origin_calls := origin_calls w |}.

Definition log_call (c : OriginCall) (w : World) : World :=
  {| db := db w; revision := revision w; server_time := server_time w;
     now := now w; origin_calls := origin_calls w ++ [c] |}.

(** ** Asynchronous computations *)

Inductive Outcome (A : Type) : Type :=
| Return (a : A)
| Throw (e : exn).
Arguments Return {A} a.
Arguments Throw {A} e.

Definition M (A : Type) : Type := World -> Outcome A * World.

Definition ret {A} (a : A) : M A := fun w => (Return a, w).

Definition throw {A} (e : exn) : M A := fun w => (Throw e, w).

Definition bind {A B} (m : M A) (k : A -> M B) : M B :=
  fun w =>
    match m w with
    | (Return a, w') => k a w'
    | (Throw e, w') => (Throw e, w')
    end.

(** [try { m } catch (error) { handler error }]. *)
Definition try_catch {A} (m : M A) (handler : exn -> M A) : M A :=
  fun w =>
    match m w with
    | (Return a, w') => (Return a, w')
    | (Throw e, w') => handler e w'
    end.

Definition Date_now : M Z := fun w => (Return (now w), w).

#[export] Instance M_ret : MRet M := @ret.
#[export] Instance M_bind : MBind M := fun A B k m => bind m k.

(** ** The document store collaborator

    A container answers a read by id with OK and the document or with
    NOT_FOUND; an upsert with OK (replaced) or CREATED and the stored
    document, or with PRECONDITION_FAILED when an IfMatch condition does not
    name the stored revision; a delete by id with OK or NOT_FOUND.  An id
    that is not a string names no document and is answered BAD_REQUEST. *)
Module HttpStatusCodes.
Definition OK : Z := 200.
Definition CREATED : Z := 201.
Definition BAD_REQUEST : Z := 400.
Definition NOT_FOUND : Z := 404.
Definition PRECONDITION_FAILED : Z := 412.
End HttpStatusCodes.

Record Response : Type := { statusCode : Z; resource : option Item }.

Definition container (w : World) (table_name : string) : gmap string Item :=
  default ∅ (db w !! table_name).

Definition item_read (table_name : string) (id : value) : M Response :=
  fun w =>
    match id with
    | VStr k =>
        match container w table_name !! k with
        | Some d => (Return {| statusCode := HttpStatusCodes.OK; resource := Some d |}, w)
        | None => (Return {| statusCode := HttpStatusCodes.NOT_FOUND; resource := None |}, w)
        end
    | _ => (Return {| statusCode := HttpStatusCodes.BAD_REQUEST; resource := None |}, w)
    end.

(** Truthiness of a variable that holds an object, [null] or [undefined]. *)
Definition present {A} (o : option A) : bool :=
  match o with Some _ => true | None => false end.

Definition is_undefined (v : value) : bool :=
  match v with VUndef => true | _ => false end.

(** The document as the store keeps it: properties that are [undefined] are
    not serialised, and the store assigns the metadata. *)
Definition stored_form (w : World) (id : string) (body : Item) : Item :=
  <["_etag" := VStr (pretty (revision w))]>
    (<["_ts" := VNum (server_time w)]>
       (<["_self" := VStr ("docs/" +:+ id)]>
          (<["_rid" := VStr id]>
             (<["_attachments" := VStr "attachments/"]>
                (filter (fun kv => is_undefined kv.2 = false) body))))).

(** [options] is the IfMatch condition of the request, when there is one. *)
Definition items_upsert (table_name : string) (body : Item) (options : option value)
  : M Response :=
  fun w =>
    match prop body "id" with
    | VStr k =>
        let existing := container w table_name !! k in
        let precondition :=
          match options, existing with
          | Some condition, Some d =>
              if truthy condition then strict_eq (prop d "_etag") condition else true
          | _, _ => true
          end in
        if precondition then
          let doc := stored_form w k body in
          (Return {| statusCode := if present existing then HttpStatusCodes.OK
                                   else HttpStatusCodes.CREATED;
                     resource := Some doc |},
           bump_revision (set_db w (<[table_name := <[k := doc]> (container w table_name)]> (db w))))
        else
          (Return {| statusCode := HttpStatusCodes.PRECONDITION_FAILED; resource := None |}, w)
    | _ => (Return {| statusCode := HttpStatusCodes.BAD_REQUEST; resource := None |}, w)
    end.

Definition item_delete (table_name : string) (id : value) : M Response :=
  fun w =>
    match id with
    | VStr k =>
        match container w table_name !! k with
        | Some _ =>
            (Return {| statusCode := HttpStatusCodes.OK; resource := None |},
             set_db w (<[table_name := delete k (container w table_name)]> (db w)))
        | None => (Return {| statusCode := HttpStatusCodes.NOT_FOUND; resource := None |}, w)
        end
    | _ => (Return {| statusCode := HttpStatusCodes.BAD_REQUEST; resource := None |}, w)
    end.

(** ** The consistency-checked store client *)

Definition validate (table : Table) (item : Item) : M unit :=
  match validateInput table item with
  | Some e => throw e
  | None => ret tt
  end.

Definition getItemFromDb (table : Table) (partitionKeys : list KeyValue) : M Item :=
  match partitionKeys with
  | [] => throw TypeError
  | primaryKey :: _ =>
      itemResponse ← item_read (name table) (value_of primaryKey);
      if Z.eqb (statusCode itemResponse) HttpStatusCodes.OK then
        ret (convertRecord table (default ∅ (resource itemResponse)))
      else if Z.eqb (statusCode itemResponse) HttpStatusCodes.NOT_FOUND then
        throw (DbReadError NotFound)
      else
        throw (DbReadError UnexpectedResponse)
  end.

Definition SaveCondition_eqb (a b : SaveCondition) : bool :=
  match a, b with
  | InsertOnly, InsertOnly | UpdateOnly, UpdateOnly | Upsert, Upsert => true
  | _, _ => false
  end.

(** The object handed to the upsert: a copy of the item with its id set and
    the store metadata removed. *)
Definition saveItem_of (table : Table) (item : Item) : Item :=
  let saveItem := item in
  let saveItem :=
    <["id" := JS.or (JS.and (JS.or (prop item "id")
                                   (VBool (is_zero (Number (prop item "id")))))
                            (prop item "id"))
                    (VStr (String (prop item (primaryKey table))))]> saveItem in
  let saveItem := delete "_attachments" saveItem in
  let saveItem := delete "_etag" saveItem in
  let saveItem := delete "_rid" saveItem in
  let saveItem := delete "_self" saveItem in
  delete "_ts" saveItem.

Definition saveItemToDb (table : Table) (item : Item) (condition : SaveCondition)
    (ensureDataConsistency : bool) : M Item :=
  _ ← validate table item;
  snapshot ← getItemFromDb table
                [ {| key := primaryKey table; value_of := prop item "id" |} ];
  let itemSnapshot : option Item := Some snapshot in
  let options : option value :=
    if ensureDataConsistency
    then Some (match itemSnapshot with
               | Some s => prop s "_etag"
               | None => VNull
               end)
    else None in
  if SaveCondition_eqb condition UpdateOnly && negb (present itemSnapshot) then
    throw (DbSaveError NotFound)
  else if SaveCondition_eqb condition InsertOnly && present itemSnapshot then
    throw (DbSaveError KeyConflict)
  else if ensureDataConsistency && present itemSnapshot
          && negb (strict_eq (prop item (primaryKey table))
                             (prop snapshot (primaryKey table))) then
    throw (DbSaveError InconsistentData)
  else
    let saveItem := saveItem_of table item in
    result ← items_upsert (name table) saveItem options;
    if Z.eqb (statusCode result) HttpStatusCodes.OK
       || Z.eqb (statusCode result) HttpStatusCodes.CREATED then
      match resource result with
      | None => throw (DbSaveError UnexpectedResponse)
      | Some r => ret (convertRecord table r)
      end
    else
      throw (DbSaveError UnexpectedResponse).

(** The snapshot's keys whose value differs from the item's. *)
Definition keyDiff (itemSnapshot item : Item) : list string :=
  List.filter (fun key => negb (strict_eq (prop itemSnapshot key) (prop item key)))
              (Object_keys itemSnapshot).

Definition deleteItemFromDb (table : Table) (item : Item) (ensureDataConsistency : bool)
  : M unit :=
  _ ← (if ensureDataConsistency then
     _ ← validate table item;
     itemSnapshot ←
       try_catch
         (getItemFromDb table
            [ {| key := primaryKey table;
                 value_of := VStr (String (prop item (primaryKey table))) |} ])
         (fun error =>
            match error with
            | DbReadError _ => throw (DbDeleteError NotFound)
            | _ => throw error
            end);
     if Nat.ltb 0 (length (keyDiff itemSnapshot item)) then
       throw (DbDeleteError InconsistentData)
     else ret tt
   else ret tt);
  if strict_eq (prop item (primaryKey table)) VNull then
    throw (DbDeleteError InconsistentData)
  else if negb (strict_eq (prop item "id") (prop item (primaryKey table))) then
    throw (DbDeleteError InconsistentData)
  else
    deleteResponse ← item_delete (name table) (prop item "id");
    if Z.eqb (statusCode deleteResponse) HttpStatusCodes.OK then
      ret tt
    else if Z.eqb (statusCode deleteResponse) HttpStatusCodes.NOT_FOUND then
      throw (DbDeleteError NotFound)
    else
      throw (DbDeleteError UnexpectedResponse).

(** ** The API request cache *)

Module ApiCacheRequest.
Record t : Type := { api : string; parameters : list string; ttl : option Z }.
End ApiCacheRequest.

Module ApiCacheResult.
Record t : Type := {
  id : value;
  api : option string;
  parameters : option (list string);
  stringifiedData : value;
  ttl : value;
  cacheTime : value
}.
End ApiCacheResult.

Module ApiCache.
Record t : Type := {
  result : value;
  hitCache : bool;
  cacheTime : value;
  ttl : Z
}.
End ApiCache.

Inductive ApiCacheOption : Type :=
| ReadApiFirst
| ReadApiOnly
| ReadCacheAndDelete
| ReadCacheFirst
| ReadCacheOnly.

Definition ApiCacheOption_eqb (a b : ApiCacheOption) : bool :=
  match a, b with
  | ReadApiFirst, ReadApiFirst
  | ReadApiOnly, ReadApiOnly
  | ReadCacheAndDelete, ReadCacheAndDelete
  | ReadCacheFirst, ReadCacheFirst
  | ReadCacheOnly, ReadCacheOnly => true
  | _, _ => false
  end.

(** An optional number-typed property: [undefined] when it is left out. *)
Definition optional_number (o : option Z) : value :=
  match o with
  | Some n => VNum n
  | None => VUndef
  end.

Definition generateCacheId (api : string) (parameters : list string) : string :=
  join "-" (api :: List.map (fun p => String (VStr p)) parameters).

Section Adaptee.

(** The cache table descriptor [new AzureApiRequestCache()], declared in
    azure-db-definitions (not among the sources). *)
Variable AzureApiRequestCache : Table.

(** The runtime's JSON.parse ([None] when it throws a SyntaxError) and
    JSON.stringify. *)
Variable JSON_parse : string -> option value.
Variable JSON_stringify : value -> string.

(** The Azure compute API: the parsed body of a list response ([None] for
    an empty response), and the response of a get. *)
Variable virtualMachineScaleSetVMs_list : string -> option value.
Variable virtualMachineScaleSetVMs_get : string -> string -> value.

Definition JSON_parse_value (text : value) : M value :=
  match JSON_parse (String text) with
  | Some v => ret v
  | None => throw SyntaxError
  end.

(** [req.ttl || item.ttl]. *)
Definition timeToLive (req : ApiCacheRequest.t) (item : Item) : value :=
  JS.or (optional_number (ApiCacheRequest.ttl req)) (prop item "ttl").

Definition apiRequestReadCache (req : ApiCacheRequest.t) : M (option ApiCacheResult.t) :=
  let table := AzureApiRequestCache in
  item ← getItemFromDb table
           [ {| key := primaryKey table;
                value_of := VStr (generateCacheId (ApiCacheRequest.api req)
                                                  (ApiCacheRequest.parameters req)) |} ];
  let item : option Item := Some item in
  match item with
  | Some item =>
      now ← Date_now;
      if gt_number (add (prop item "cacheTime") (mul (timeToLive req item) (VNum 1000))) now
      then ret (Some {| ApiCacheResult.id := prop item "id";
                        ApiCacheResult.api := None;
                        ApiCacheResult.parameters := None;
                        ApiCacheResult.stringifiedData := prop item "res";
                        ApiCacheResult.ttl := prop item "ttl";
                        ApiCacheResult.cacheTime := prop item "cacheTime" |})
      else ret None
  | None => ret None
  end.

Definition apiRequestDeleteCache (req : ApiCacheRequest.t) : M unit :=
  let table := AzureApiRequestCache in
  let item :=
    downcast table
      (<["id" := VStr (generateCacheId (ApiCacheRequest.api req)
                                       (ApiCacheRequest.parameters req))]>
         (<["res" := VNull]> (<["cacheTime" := VNull]> (<["ttl" := VNull]> ∅)))) in
  deleteItemFromDb table item false.

Definition truthy_text (o : option string) : bool :=
  match o with
  | Some s => truthy (VStr s)
  | None => false
  end.

Definition apiRequestSaveCache (res : ApiCacheResult.t) : M ApiCacheResult.t :=
  if negb (truthy (ApiCacheResult.id res)
           || (negb (truthy (ApiCacheResult.id res))
               && truthy_text (ApiCacheResult.api res)
               && present (ApiCacheResult.parameters res)))
  then throw (Error "Invalid cache result to save. id, api, and paramters are required.")
  else
    let table := AzureApiRequestCache in
    id ← (if truthy (ApiCacheResult.id res) then ret (ApiCacheResult.id res)
          else match ApiCacheResult.api res, ApiCacheResult.parameters res with
               | Some api, Some parameters => ret (VStr (generateCacheId api parameters))
               | None, Some parameters => ret (VStr (generateCacheId EmptyString parameters))
               | _, None => throw TypeError
               end);
    let item :=
      downcast table
        (<["id" := id]>
           (<["res" := ApiCacheResult.stringifiedData res]>
              (<["cacheTime" := VUndef]>
                 (<["ttl" := mul (ApiCacheResult.ttl res) (VNum 1000)]> ∅)))) in
    saved ← saveItemToDb table item Upsert false;
    let savedItem : option Item := Some saved in
    match savedItem with
    | Some savedItem =>
        ret {| ApiCacheResult.id := ApiCacheResult.id res;
               ApiCacheResult.api := ApiCacheResult.api res;
               ApiCacheResult.parameters := ApiCacheResult.parameters res;
               ApiCacheResult.stringifiedData := ApiCacheResult.stringifiedData res;
               ApiCacheResult.ttl := ApiCacheResult.ttl res;
               ApiCacheResult.cacheTime := prop savedItem "cacheTime" |}
    | None => ret res
    end.

(** ** The cache policy engine *)

Definition requestWithCaching (req : ApiCacheRequest.t) (cacheOption : ApiCacheOption)
    (dataProcessor : M value) : M ApiCache.t :=
  let ttl := 600 in
  (* read cache for those options require reading cache *)
  '(res, cacheTime, data) ←
    (if negb (ApiCacheOption_eqb cacheOption ReadApiOnly) then
       res ← apiRequestReadCache req;
       let cacheTime :=
         match res with
         | Some r => ApiCacheResult.cacheTime r
         | None => VNull
         end in
       data ← match res with
              | Some r =>
                  parsed ← JSON_parse_value (ApiCacheResult.stringifiedData r);
                  ret (JS.or parsed (VArr []))
              | None => ret (VArr [])
              end;
       ret (res, cacheTime, data)
     else ret (None, VUndef, VUndef));
  let hitCache := present res in
  '(cacheTime, data) ←
    (if ApiCacheOption_eqb cacheOption ReadCacheOnly
        || ApiCacheOption_eqb cacheOption ReadCacheAndDelete then
       (* delete the cache if exists *)
       if ApiCacheOption_eqb cacheOption ReadCacheAndDelete && present res then
         _ ← apiRequestDeleteCache req;
         ret (VNum 0, VNull)
       else ret (cacheTime, data)
     else if (ApiCacheOption_eqb cacheOption ReadCacheFirst && negb (present res))
             || ApiCacheOption_eqb cacheOption ReadApiOnly then
       (* read data from api *)
       data ← dataProcessor;
       if truthy data then
         if ApiCacheOption_eqb cacheOption ReadCacheFirst then
           match res with
           | None => throw TypeError   (* res.api = req.api *)
           | Some r =>
               let r :=
                 {| ApiCacheResult.id := ApiCacheResult.id r;
                    ApiCacheResult.api := Some (ApiCacheRequest.api req);
                    ApiCacheResult.parameters := Some (ApiCacheRequest.parameters req);
                    ApiCacheResult.stringifiedData := VStr (JSON_stringify data);
                    ApiCacheResult.ttl := optional_number (ApiCacheRequest.ttl req);
                    ApiCacheResult.cacheTime := ApiCacheResult.cacheTime r |} in
               res ← apiRequestSaveCache r;
               ret (ApiCacheResult.cacheTime res, data)
           end
         else ret (cacheTime, data)
       else ret (cacheTime, data)
     else ret (cacheTime, data));
  ret {| ApiCache.result := data;
         ApiCache.cacheTime := cacheTime;
         ApiCache.ttl := ttl;
         ApiCache.hitCache := hitCache |}.

(** ** The resource query facades *)

Definition origin (c : OriginCall) : M unit :=
  fun w => (Return tt, log_call c w).

Definition listInstances (scalingGroupName : string) (cacheOption : ApiCacheOption)
  : M ApiCache.t :=
  let req := {| ApiCacheRequest.api := "listInstances";
                ApiCacheRequest.parameters := [scalingGroupName];
                ApiCacheRequest.ttl := Some 600 |} in
  let requestProcessor : M value :=
    _ ← origin (VmssList scalingGroupName);
    match virtualMachineScaleSetVMs_list scalingGroupName with
    | Some parsedBody => ret (JS.or parsedBody VNull)
    | None => ret VNull
    end in
  requestWithCaching req cacheOption requestProcessor.

(** [v.vmId && v.vmId === id]; reading a property of [null] or [undefined]
    is a TypeError. *)
Definition vmId_matches (id : string) (v : value) : Outcome bool :=
  match v with
  | VUndef | VNull => Throw TypeError
  | VObj fields =>
      Return (truthy (field "vmId" fields) && strict_eq (field "vmId" fields) (VStr id))
  | _ => Return false
  end.

(** [list.find(v => v.vmId && v.vmId === id)]. *)
Fixpoint find_by_vmId (id : string) (list : list value) : Outcome value :=
  match list with
  | [] => Return VUndef
  | v :: rest =>
      match vmId_matches id v with
      | Throw e => Throw e
      | Return true => Return v
      | Return false => find_by_vmId id rest
      end
  end.

Definition describeInstance (scalingGroupName id : string) (cacheOption : ApiCacheOption)
  : M ApiCache.t :=
  if isFinite (Number (VStr id)) then
    let req := {| ApiCacheRequest.api := "describeInstance";
                  ApiCacheRequest.parameters := [scalingGroupName; id];
                  ApiCacheRequest.ttl := Some 600 |} in
    let requestProcessor : M value :=
      _ ← origin (VmssGet scalingGroupName id);
      ret (virtualMachineScaleSetVMs_get scalingGroupName id) in
    requestWithCaching req cacheOption requestProcessor
  else
    listResult ← listInstances scalingGroupName cacheOption;
    data ← match ApiCache.result listResult with
           | VArr list =>
               match find_by_vmId id list with
               | Return v => ret v
               | Throw e => throw e
               end
           | _ => throw TypeError
           end;
    ret {| ApiCache.result := data;
           ApiCache.cacheTime := ApiCache.cacheTime listResult;
           ApiCache.ttl := ApiCache.ttl listResult;
           ApiCache.hitCache := ApiCache.hitCache listResult |}.

End Adaptee.

(** ** Concrete collaborators for the worked examples *)

Module Examples.

Definition required (names : list string) (item : Item) : option exn :=
  if forallb (fun k => present (item !! k)) names then None
  else Some (Error "required attribute not found").

(** Modelled from the spec: the [AzureApiRequestCache] table of
    azure-db-definitions.  Its records are cache entries with the fields
    [id], [res], [cacheTime] and [ttl]; the primary key is [id]; the cache
    time of a converted record is the timestamp the store assigned at the
    write ([_ts]). *)
Definition AzureApiRequestCache : Table :=
  {| name := "ApiRequestCache";
     primaryKey := "id";
     validateInput := required ["id"; "res"; "cacheTime"; "ttl"];
     convertRecord := fun r =>
       <["id" := prop r "id"]>
         (<["res" := prop r "res"]>
            (<["cacheTime" := prop r "_ts"]>
               (<["ttl" := prop r "ttl"]> ∅)));
     downcast := fun o => o |}.

(** Modelled from the spec: the [AzureSettings] table of
    azure-db-definitions, keyed by [settingKey]; a converted record keeps
    the stored fields as they are. *)
Definition AzureSettings : Table :=
  {| name := "Settings";
     primaryKey := "settingKey";
     validateInput := required ["settingKey"];
     convertRecord := fun r => r;
     downcast := fun o => o |}.

(** JSON texts of the examples and the values they denote. *)
Definition json_texts : list (string * value) :=
  [ ("[]", VArr []);
    ("null", VNull);
    ("[1,2]", VArr [VNum 1; VNum 2]);
    ("7", VNum 7) ].

Definition JSON_parse (text : string) : option value :=
  snd <$> List.find (fun tv => String.eqb (fst tv) text) json_texts.

Definition JSON_stringify (v : value) : string :=
  match v with
  | VArr [] => "[]"
  | VArr [VNum 1; VNum 2] => "[1,2]"
  | VNum n => pretty n
  | _ => "null"
  end.

Definition vm (vmId : string) : value :=
  VObj [("instanceId", VStr "3"); ("vmId", VStr vmId)].

Definition vmss_list (scalingGroupName : string) : option value :=
  Some (VArr [vm "vm-guid-abc"; vm "vm-guid-xyz"]).

Definition vmss_get (scalingGroupName id : string) : value := vm "vm-guid-xyz".

Definition world (docs : gmap string (gmap string Item)) (clock : Z) : World :=
  {| db := docs; revision := 7; server_time := clock; now := clock; origin_calls := [] |}.

Definition cache_entry (id res : string) (cacheTime ttl : Z) : Item :=
  <["id" := VStr id]> (<["res" := VStr res]> (<["ttl" := VNum ttl]>
    (<["_ts" := VNum cacheTime]> (<["_etag" := VStr "3"]> ∅)))).

(** A cache holding the instance list of [vmss-A], written at time 1000. *)
Definition cached_list : gmap string (gmap string Item) :=
  {[ "ApiRequestCache" :=
       {[ "listInstances-vmss-A" :=
            cache_entry "listInstances-vmss-A" "[1,2]" 1000 600000 ]} ]}.

Definition vmss_A_list : ApiCacheRequest.t :=
  {| ApiCacheRequest.api := "listInstances";
     ApiCacheRequest.parameters := ["vmss-A"];
     ApiCacheRequest.ttl := Some 600 |}.

(** A producer that answers with the list [[1,2]] and logs its call. *)
Definition producer : M value :=
  fun w => (Return (VArr [VNum 1; VNum 2]), log_call (VmssList "vmss-A") w).

(** A settings container with one record. *)
Definition setting (id key val : string) : Item :=
  <["id" := VStr id]> (<["settingKey" := VStr key]> (<["settingValue" := VStr val]> ∅)).

Definition settings_db : gmap string (gmap string Item) :=
  {[ "Settings" := {[ "k1" := setting "k1" "k1" "v" ]} ]}.

End Examples.

(** ** Listing records, settings and network interfaces *)

Module CosmosDBQueryWhereClause.
Record t : Type := { name : string; value : JS.value }.
End CosmosDBQueryWhereClause.

Module SqlParameter.
Record t : Type := { name : string; value : JS.value }.
End SqlParameter.

Module SqlQuerySpec.
Record t : Type := { query : string; parameters : option (list SqlParameter.t) }.
End SqlQuerySpec.

Module CosmosDBQueryResult.
Record t : Type := { query : string; result : list Item }.
End CosmosDBQueryResult.

Module SettingItem.
Record t : Type := {
  key : JS.value;
  value : JS.value;
  description : JS.value;
  editable : JS.value;
  jsonEncoded : JS.value
}.
End SettingItem.

(** [s.substr(0, length)]. *)
Definition substr0 (s : string) (length : Z) : string :=
  if Z.leb length 0 then EmptyString
  else String.substring 0 (Z.to_nat length) s.

(** One step of the clause loop: the query text grows by the clause. *)
Definition add_clause (query : string) (clause : CosmosDBQueryWhereClause.t) : string :=
  query +:+ " t." +:+ CosmosDBQueryWhereClause.name clause
        +:+ " = @" +:+ CosmosDBQueryWhereClause.name clause +:+ " AND".

Definition clause_parameter (clause : CosmosDBQueryWhereClause.t) : SqlParameter.t :=
  {| SqlParameter.name := "@" +:+ CosmosDBQueryWhereClause.name clause;
     SqlParameter.value := CosmosDBQueryWhereClause.value clause |}.

(** The query specification that [listItemFromDb] hands to the store. *)
Definition querySpec_of (table : Table)
    (listClause : option (list CosmosDBQueryWhereClause.t)) (limit : option Z)
  : SqlQuerySpec.t :=
  let query := "SELECT * FROM " +:+ name table +:+ " t" in
  let '(query, parameters) :=
    match listClause with
    | Some ((_ :: _) as clauses) =>
        let query := query +:+ " WHERE" in
        let query := fold_left add_clause clauses query in
        (* to remove the last ' AND' *)
        (substr0 query (Z.of_nat (String.length query) - 4),
         Some (List.map clause_parameter clauses))
    | _ => (query, None)
    end in
  let query :=
    match limit with
    | Some n =>
        if truthy (VNum n) && Z.ltb 0 n
        then query +:+ " LIMIT " +:+ String (VNum n)
        else query
    | None => query
    end in
  {| SqlQuerySpec.query := query; SqlQuerySpec.parameters := parameters |}.

Section Listing.

(** The store's query engine: the documents of a container that a query
    specification selects ([items.query(querySpec).fetchAll()]). *)
Variable items_query : SqlQuerySpec.t -> gmap string Item -> list Item.

Definition listItemFromDb (table : Table)
    (listClause : option (list CosmosDBQueryWhereClause.t)) (limit : option Z)
  : M CosmosDBQueryResult.t :=
  let querySpec := querySpec_of table listClause limit in
  fun w =>
    (Return {| CosmosDBQueryResult.query := SqlQuerySpec.query querySpec;
               CosmosDBQueryResult.result :=
                 items_query querySpec (container w (name table)) |},
     w).

(** The settings table descriptor [new AzureSettings()] and the values of
    [AzureFortiGateAutoscaleSetting], whose base dictionary is not among the
    sources. *)
Variable AzureSettings : Table.
Variable AzureFortiGateAutoscaleSetting_values : list string.

(** One step of the loop over the setting names. *)
Definition collect_setting (records : gmap string Item)
    (settings : gmap string SettingItem.t) (value : string)
  : gmap string SettingItem.t :=
  match records !! value with
  | Some record =>
      <[value := {| SettingItem.key := prop record "settingKey";
                    SettingItem.value := prop record "settingValue";
                    SettingItem.description := prop record "description";
                    SettingItem.editable := prop record "editable";
                    SettingItem.jsonEncoded := prop record "jsonEncoded" |}]> settings
  | None => settings
  end.

(** [loadSettings], with the adaptee's [settings] field passed in and out. *)
Definition loadSettings (this_settings : option (gmap string SettingItem.t))
  : M (gmap string SettingItem.t * option (gmap string SettingItem.t)) :=
  match this_settings with
  | Some settings => ret (settings, Some settings)
  | None =>
      let table := AzureSettings in
      let records : gmap string Item := ∅ in
      queryResult ← listItemFromDb table None None;
      let _ := List.map (fun rec => (prop rec "settingKey", rec))
                        (CosmosDBQueryResult.result queryResult) in
      let settings :=
        fold_left (collect_setting records) AzureFortiGateAutoscaleSetting_values ∅ in
      ret (settings, Some settings)
  end.

End Listing.

Section NetworkInterfaces.

Variable AzureApiRequestCache : Table.
Variable JSON_parse : string -> option value.
Variable JSON_stringify : value -> string.

(** The Azure network API call of the producer: the parsed body of the
    response ([None] for an empty response), as a computation of its own. *)
Variable listVirtualMachineScaleSetVMNetworkInterfaces : string -> string -> M (option value).

Definition listNetworkInterfaces (scalingGroupName : string) (id : Z)
    (cacheOption : ApiCacheOption) (ttl : Z) : M ApiCache.t :=
  let req := {| ApiCacheRequest.api := "listNetworkInterfaces";
                ApiCacheRequest.parameters := [scalingGroupName; String (VNum id)];
                ApiCacheRequest.ttl := Some ttl |} in
  let requestProcessor : M value :=
    response ← listVirtualMachineScaleSetVMNetworkInterfaces
                 scalingGroupName (String (VNum id));
    match response with
    | Some parsedBody => ret (JS.or parsedBody VNull)
    | None => ret VNull
    end in
  requestWithCaching AzureApiRequestCache JSON_parse JSON_stringify
    req cacheOption requestProcessor.

End NetworkInterfaces.

(** Further collaborators for worked examples. *)
Module MoreExamples.

(** A query engine that selects every document of the container. *)
Definition select_all (spec : SqlQuerySpec.t) (docs : gmap string Item) : list Item :=
  (map_to_list docs).*2.

Definition clause (name value : string) : CosmosDBQueryWhereClause.t :=
  {| CosmosDBQueryWhereClause.name := name;
     CosmosDBQueryWhereClause.value := VStr value |}.

(** A network API that answers with the list [[1,2]]. *)
Definition nics (scalingGroupName id : string) : M (option value) :=
  ret (Some (VArr [VNum 1; VNum 2])).

(** A cache holding the interfaces of instance 3 of [vmss-A], written at
    time 1000. *)
Definition cached_nics : gmap string (gmap string Item) :=
  {[ "ApiRequestCache" :=
       {[ "listNetworkInterfaces-vmss-A-3" :=
            Examples.cache_entry "listNetworkInterfaces-vmss-A-3" "[1,2]" 1000 600000 ]} ]}.

End MoreExamples.

(** ** Vocabulary of the statements *)

(** The partition key under which the entry of a request is stored. *)
Definition cache_key (table : Table) (req : ApiCacheRequest.t) : list KeyValue :=
  [ {| key := primaryKey table;
       value_of := VStr (generateCacheId (ApiCacheRequest.api req)
                                         (ApiCacheRequest.parameters req)) |} ].

(** What [apiRequestReadCache] answers on a hit. *)
Definition cached_result (item : Item) : ApiCacheResult.t :=
  {| ApiCacheResult.id := prop item "id";
     ApiCacheResult.api := None;
     ApiCacheResult.parameters := None;
     ApiCacheResult.stringifiedData := prop item "res";
     ApiCacheResult.ttl := prop item "ttl";
     ApiCacheResult.cacheTime := prop item "cacheTime" |}.

(** No character of the string is the join character. *)
Fixpoint dash_free (s : string) : bool :=
  match s with
  | EmptyString => true
  | String.String c rest => negb (Ascii.eqb c "-") && dash_free rest
  end.

(** What follows a component in a joined id: nothing, or the join character
    and the remaining components. *)
Definition dash_led (r : string) : Prop :=
  r = EmptyString \/ exists r', r = String.String "-" r'.

(** The store-metadata fields. *)
Definition metadata : list string :=
  ["_attachments"; "_etag"; "_rid"; "_self"; "_ts"].



(** A computation that makes no origin call. *)
Definition quiet {A} (m : M A) : Prop :=
  forall w, origin_calls (m w).2 = origin_calls w.

(** Whether the engine calls the producer: always under ReadApiOnly, and
    under ReadCacheFirst when the cache read reports a miss. *)
Definition origin_consulted (cacheOption : ApiCacheOption)
    (read : Outcome (option ApiCacheResult.t)) : bool :=
  match cacheOption, read with
  | ReadApiOnly, _ => true
  | ReadCacheFirst, Return None => true
  | _, _ => false
  end.

(** The condition a where-clause stands for in the query text. *)
Definition clause_text (clause : CosmosDBQueryWhereClause.t) : string :=
  "t." +:+ CosmosDBQueryWhereClause.name clause
       +:+ " = @" +:+ CosmosDBQueryWhereClause.name clause.

(** The cache requests the facades build. *)
Definition list_request (scalingGroupName : string) : ApiCacheRequest.t :=
  {| ApiCacheRequest.api := "listInstances";
     ApiCacheRequest.parameters := [scalingGroupName];
     ApiCacheRequest.ttl := Some 600 |}.

Definition describe_request (scalingGroupName id : string) : ApiCacheRequest.t :=
  {| ApiCacheRequest.api := "describeInstance";
     ApiCacheRequest.parameters := [scalingGroupName; id];
     ApiCacheRequest.ttl := Some 600 |}.

(** What the engine returns. *)
Definition envelope (result : value) (hitCache : bool) (cacheTime : value) : ApiCache.t :=
  {| ApiCache.result := result;
     ApiCache.hitCache := hitCache;
     ApiCache.cacheTime := cacheTime;
     ApiCache.ttl := 600 |}.

(** A decimal digit, as [read_digits] reads it. *)
Definition decimal_digit (c : ascii) : bool :=
  match digit_of 10 c with
  | Some _ => true
  | None => false
  end.

(** * Properties *)

(** ** Running computations *)

Lemma bind_run {A B} (m : M A) (k : A -> M B) (w : World) :
  (m ≫= k) w
  = match m w with
    | (Return a, w') => k a w'
    | (Throw e, w') => (Throw e, w')
    end.
Proof. reflexivity. Qed.

Lemma bind_Return {A B} (m : M A) (k : A -> M B) w a w' :
  m w = (Return a, w') -> (m ≫= k) w = k a w'.
Proof. intros H. rewrite bind_run, H. reflexivity. Qed.

Lemma bind_Throw {A B} (m : M A) (k : A -> M B) w e w' :
  m w = (Throw e, w') -> (m ≫= k) w = (Throw e, w').
Proof. intros H. rewrite bind_run, H. reflexivity. Qed.

(** Runs the binds at the head of the goal. *)
Ltac msimpl :=
  repeat (try rewrite !bind_run; unfold ret, throw;
          cbv beta iota; cbn [present negb andb orb]).

Lemma prop_insert_eq (item : Item) k v : prop (<[k := v]> item) k = v.
Proof. unfold prop. rewrite lookup_insert_eq. reflexivity. Qed.

Lemma prop_insert_ne (item : Item) k k' v :
  k <> k' -> prop (<[k := v]> item) k' = prop item k'.
Proof. intros H. unfold prop. rewrite lookup_insert_ne by exact H. reflexivity. Qed.

Lemma prop_delete_ne (item : Item) k k' :
  k <> k' -> prop (delete k item) k' = prop item k'.
Proof. intros H. unfold prop. rewrite lookup_delete_ne by exact H. reflexivity. Qed.

Lemma validate_passes table item w :
  validateInput table item = None -> validate table item w = (Return tt, w).
Proof. intros H. unfold validate. rewrite H. reflexivity. Qed.

Lemma item_read_world table_name id w : (item_read table_name id w).2 = w.
Proof.
  unfold item_read. destruct id; try reflexivity.
  destruct (container w table_name !! s); reflexivity.
Qed.

Lemma getItemFromDb_found table kn k w doc :
  container w (name table) !! k = Some doc ->
  getItemFromDb table [ {| key := kn; value_of := VStr k |} ] w
  = (Return (convertRecord table doc), w).
Proof.
  intros H. unfold getItemFromDb, item_read. rewrite bind_run. simpl.
  rewrite H. reflexivity.
Qed.

Lemma getItemFromDb_missing table kn k w :
  container w (name table) !! k = None ->
  getItemFromDb table [ {| key := kn; value_of := VStr k |} ] w
  = (Throw (DbReadError NotFound), w).
Proof.
  intros H. unfold getItemFromDb, item_read. rewrite bind_run. simpl.
  rewrite H. reflexivity.
Qed.

(** A read never changes the world, and a successful read by id found the
    document. *)
Lemma getItemFromDb_outcome table kn v w :
  (exists k doc, v = VStr k /\ container w (name table) !! k = Some doc
                 /\ getItemFromDb table [ {| key := kn; value_of := v |} ] w
                    = (Return (convertRecord table doc), w))
  \/ (exists code, getItemFromDb table [ {| key := kn; value_of := v |} ] w
                   = (Throw (DbReadError code), w)).
Proof.
  destruct v as [| | | | |k| |];
    try (right; exists UnexpectedResponse; reflexivity).
  destruct (container w (name table) !! k) as [doc|] eqn:E.
  - left. exists k, doc. eauto using getItemFromDb_found.
  - right. exists NotFound. eauto using getItemFromDb_missing.
Qed.

Lemma getItemFromDb_Return table kn v w item w' :
  getItemFromDb table [ {| key := kn; value_of := v |} ] w = (Return item, w') ->
  w' = w /\ exists k doc, v = VStr k /\ container w (name table) !! k = Some doc
                          /\ item = convertRecord table doc.
Proof.
  destruct (getItemFromDb_outcome table kn v w) as [(k & doc & -> & Hk & ->)|[code ->]];
    [|discriminate].
  intros [= <- <-]. eauto 6.
Qed.

(** ** Saving with no stored record *)

(** C2 (the code departs from the specification): when no record is stored under the
    item's id, [saveItemToDb] fails with the read error NotFound that
    [getItemFromDb] throws, whatever the save condition and the consistency
    flag, and writes nothing.  The save succeeds under neither Upsert nor
    InsertOnly, and UpdateOnly fails with the read error rather than with the
    save error of the [!itemSnapshot] test, which is never reached. *)
Theorem saveItemToDb_missing_record_throws_read_error
    (table : Table) (item : Item) (k : string) (w : World)
    (condition : SaveCondition) (ensureDataConsistency : bool) :
  validateInput table item = None ->
  prop item "id" = VStr k ->
  container w (name table) !! k = None ->
  saveItemToDb table item condition ensureDataConsistency w
  = (Throw (DbReadError NotFound), w).
Proof.
  intros Hv Hid Hk. unfold saveItemToDb.
  rewrite (bind_Return _ _ _ _ _ (validate_passes table item w Hv)).
  rewrite Hid.
  apply bind_Throw, getItemFromDb_missing, Hk.
Qed.

Lemma saveItemToDb_missing_record_witness :
  saveItemToDb Examples.AzureSettings (Examples.setting "k2" "k2" "v") Upsert true
               (Examples.world Examples.settings_db 0)
  = (Throw (DbReadError NotFound), Examples.world Examples.settings_db 0).
Proof.
  apply (saveItemToDb_missing_record_throws_read_error
           Examples.AzureSettings (Examples.setting "k2" "k2" "v") "k2");
    vm_compute; reflexivity.
Defined.

(** ** Arithmetic on numbers *)

Lemma ToNumber_VNum n : ToNumber (VNum n) = VNum n.
Proof. unfold ToNumber. simpl. f_equal. lia. Qed.

Lemma mul_VNum a b : mul (VNum a) (VNum b) = VNum (a * b).
Proof. unfold mul. rewrite !ToNumber_VNum. reflexivity. Qed.

Lemma add_VNum a b : add (VNum a) (VNum b) = VNum (a + b).
Proof. unfold add. cbn [is_text orb]. rewrite !ToNumber_VNum. reflexivity. Qed.

Lemma gt_number_VNum a n : gt_number (VNum a) n = Z.ltb n a.
Proof. unfold gt_number. rewrite ToNumber_VNum. reflexivity. Qed.

(** ** Validity of a cache entry *)

Lemma apiRequestReadCache_stored table req w item c t :
  getItemFromDb table (cache_key table req) w = (Return item, w) ->
  prop item "cacheTime" = VNum c ->
  timeToLive req item = VNum t ->
  apiRequestReadCache table req w
  = (Return (if Z.ltb (now w) (c + t * 1000) then Some (cached_result item) else None), w).
Proof.
  intros Hget Hc Ht. unfold apiRequestReadCache.
  rewrite (bind_Return _ _ _ _ _ Hget). cbv zeta.
  rewrite bind_run. unfold Date_now. cbv iota beta.
  rewrite Hc, Ht, mul_VNum, add_VNum, gt_number_VNum.
  unfold cached_result. rewrite Hc.
  destruct (Z.ltb (now w) (c + t * 1000)); reflexivity.
Qed.

(** C5 (as amended): a stored cache entry, read by a request that carries a
    ttl [t] other than zero, is a hit exactly when [c + t*1000 > now], [c]
    being the entry's cache time and [t] the ttl of the reading request,
    whatever ttl the entry was stored with: an unexpired entry is returned,
    an expired one is a miss although it is still stored; in particular
    [c = now - t*1000 - 1] is a miss and [c = now - t*1000 + 1] is a hit. *)
Theorem apiRequestReadCache_hit_iff_unexpired
    (table : Table) (req : ApiCacheRequest.t) (w : World) (doc : Item) (c t : Z) :
  container w (name table)
    !! generateCacheId (ApiCacheRequest.api req) (ApiCacheRequest.parameters req)
  = Some doc ->
  prop (convertRecord table doc) "cacheTime" = VNum c ->
  ApiCacheRequest.ttl req = Some t ->
  t <> 0 ->
  let hit := (Return (Some (cached_result (convertRecord table doc))), w) in
  let miss := (Return None, w) in
  (c + t * 1000 > now w -> apiRequestReadCache table req w = hit)
  /\ (c + t * 1000 <= now w -> apiRequestReadCache table req w = miss)
  /\ (c = now w - t * 1000 - 1 -> apiRequestReadCache table req w = miss)
  /\ (c = now w - t * 1000 + 1 -> apiRequestReadCache table req w = hit).
Proof.
  intros Hdoc Hc Httl Hnz hit miss. subst hit miss.
  assert (Hlive : timeToLive req (convertRecord table doc) = VNum t).
  { unfold timeToLive. rewrite Httl. cbn [optional_number]. unfold JS.or. cbn [truthy].
    replace (Z.eqb t 0) with false by (symmetry; apply Z.eqb_neq; exact Hnz).
    reflexivity. }
  rewrite (apiRequestReadCache_stored table req w (convertRecord table doc) c t
             (getItemFromDb_found table (primaryKey table) _ w doc Hdoc) Hc Hlive).
  split; [|split; [|split]]; intros H.
  - replace (Z.ltb (now w) (c + t * 1000)) with true by (symmetry; apply Z.ltb_lt; lia).
    reflexivity.
  - replace (Z.ltb (now w) (c + t * 1000)) with false by (symmetry; apply Z.ltb_ge; lia).
    reflexivity.
  - replace (Z.ltb (now w) (c + t * 1000)) with false by (symmetry; apply Z.ltb_ge; lia).
    reflexivity.
  - replace (Z.ltb (now w) (c + t * 1000)) with true by (symmetry; apply Z.ltb_lt; lia).
    reflexivity.
Qed.

Lemma apiRequestReadCache_hit_iff_unexpired_witness :
  let req := {| ApiCacheRequest.api := "listInstances";
                ApiCacheRequest.parameters := ["vmss-A"];
                ApiCacheRequest.ttl := Some 30 |} in
  let item := convertRecord Examples.AzureApiRequestCache
                (Examples.cache_entry "listInstances-vmss-A" "[1,2]" 1000 600000) in
  apiRequestReadCache Examples.AzureApiRequestCache req
    (Examples.world Examples.cached_list 30999)
  = (Return (Some (cached_result item)), Examples.world Examples.cached_list 30999)
  /\ apiRequestReadCache Examples.AzureApiRequestCache req
       (Examples.world Examples.cached_list 31001)
     = (Return None, Examples.world Examples.cached_list 31001).
Proof.
  intros req item. split.
  - pose proof (apiRequestReadCache_hit_iff_unexpired Examples.AzureApiRequestCache req
                  (Examples.world Examples.cached_list 30999)
                  (Examples.cache_entry "listInstances-vmss-A" "[1,2]" 1000 600000)
                  1000 30) as H.
    cbv zeta in H.
    destruct H as (_ & _ & _ & Hhit);
      [vm_compute; reflexivity | vm_compute; reflexivity | reflexivity | discriminate |].
    apply Hhit. vm_compute. reflexivity.
  - pose proof (apiRequestReadCache_hit_iff_unexpired Examples.AzureApiRequestCache req
                  (Examples.world Examples.cached_list 31001)
                  (Examples.cache_entry "listInstances-vmss-A" "[1,2]" 1000 600000)
                  1000 30) as H.
    cbv zeta in H.
    destruct H as (_ & _ & Hmiss & _);
      [vm_compute; reflexivity | vm_compute; reflexivity | reflexivity | discriminate |].
    apply Hmiss. vm_compute. reflexivity.
Defined.

(** C5 as stated, with the ttl of the entry, fails in both directions.  An
    entry stored with a ttl of 600 seconds at time 1000 is unexpired at time
    100000, and a request with a ttl of 30 seconds gets a miss; an entry
    stored with a ttl of 30 seconds at time 1000 is expired at time 100000,
    and a request with a ttl of 600 seconds, as [listInstances] makes it,
    gets it as a hit. *)
Lemma apiRequestReadCache_goes_by_request_ttl :
  let table := Examples.AzureApiRequestCache in
  let entry (ttl : Z) :=
    Examples.cache_entry "listInstances-vmss-A" "[1,2]" 1000 (ttl * 1000) in
  let cache (ttl : Z) : gmap string (gmap string Item) :=
    {[ "ApiRequestCache" := {[ "listInstances-vmss-A" := entry ttl ]} ]} in
  let req (ttl : Z) :=
    {| ApiCacheRequest.api := "listInstances";
       ApiCacheRequest.parameters := ["vmss-A"];
       ApiCacheRequest.ttl := Some ttl |} in
  (1000 + 600 * 1000 > 100000
   /\ apiRequestReadCache table (req 30) (Examples.world (cache 600) 100000)
      = (Return None, Examples.world (cache 600) 100000))
  /\ (1000 + 30 * 1000 <= 100000
      /\ apiRequestReadCache table (req 600) (Examples.world (cache 30) 100000)
         = (Return (Some (cached_result (convertRecord table (entry 30)))),
            Examples.world (cache 30) 100000)).
Proof.
  cbv zeta. split; (split; [lia | vm_compute; reflexivity]).
Qed.

(** ** The cache read never writes *)

Lemma apiRequestReadCache_outcome table req w :
  (exists o, apiRequestReadCache table req w = (Return o, w))
  \/ (exists code, apiRequestReadCache table req w = (Throw (DbReadError code), w)).
Proof.
  unfold apiRequestReadCache.
  destruct (getItemFromDb_outcome table (primaryKey table)
              (VStr (generateCacheId (ApiCacheRequest.api req)
                                     (ApiCacheRequest.parameters req))) w)
    as [(k & doc & _ & _ & Hget)|[code Hget]].
  - left. rewrite (bind_Return _ _ _ _ _ Hget). cbv zeta.
    rewrite bind_run. unfold Date_now. cbv iota beta.
    match goal with |- context [if ?b then _ else _] => destruct b end; eauto.
  - right. exists code. apply bind_Throw, Hget.
Qed.

Lemma apiRequestReadCache_world table req w :
  (apiRequestReadCache table req w).2 = w.
Proof.
  destruct (apiRequestReadCache_outcome table req w) as [[o ->]|[code ->]]; reflexivity.
Qed.

(** A hit comes from a stored document. *)
Lemma apiRequestReadCache_hit_stored table req w r w' :
  apiRequestReadCache table req w = (Return (Some r), w') ->
  exists doc,
    container w (name table)
      !! generateCacheId (ApiCacheRequest.api req) (ApiCacheRequest.parameters req)
    = Some doc.
Proof.
  unfold apiRequestReadCache.
  destruct (getItemFromDb_outcome table (primaryKey table)
              (VStr (generateCacheId (ApiCacheRequest.api req)
                                     (ApiCacheRequest.parameters req))) w)
    as [(k & doc & [= <-] & Hk & Hget)|[code Hget]].
  - eauto.
  - rewrite (bind_Throw _ _ _ _ _ Hget). discriminate.
Qed.

Lemma apiRequestReadCache_missing table req w :
  container w (name table)
    !! generateCacheId (ApiCacheRequest.api req) (ApiCacheRequest.parameters req) = None ->
  apiRequestReadCache table req w = (Throw (DbReadError NotFound), w).
Proof.
  intros H. unfold apiRequestReadCache.
  apply bind_Throw, getItemFromDb_missing, H.
Qed.

Section PolicyEngine.

Variable table : Table.
Variable JSON_parse : string -> option value.
Variable JSON_stringify : value -> string.

Local Abbreviation engine := (requestWithCaching table JSON_parse JSON_stringify).

Lemma JSON_parse_value_world text w :
  (JSON_parse_value JSON_parse text w).2 = w.
Proof. unfold JSON_parse_value. destruct (JSON_parse (String text)); reflexivity. Qed.

(** Under ReadCacheOnly the engine only reads. *)
Lemma ReadCacheOnly_world req dataProcessor w :
  (engine req ReadCacheOnly dataProcessor w).2 = w.
Proof.
  unfold requestWithCaching. cbn [ApiCacheOption_eqb negb orb andb].
  rewrite !bind_run.
  destruct (apiRequestReadCache_outcome table req w) as [[o ->]|[code ->]];
    [|reflexivity].
  destruct o as [r|].
  - rewrite !bind_run.
    pose proof (JSON_parse_value_world (ApiCacheResult.stringifiedData r) w) as Hw.
    destruct (JSON_parse_value JSON_parse (ApiCacheResult.stringifiedData r) w)
      as [[v|e] w']; simpl in Hw; subst w'; reflexivity.
  - reflexivity.
Qed.

(** Under ReadCacheFirst a miss never yields a result when the producer
    has data: an absent entry makes the cache read throw, and after an
    expired entry the engine assigns to a property of the null [res]. *)
Lemma ReadCacheFirst_absent req dataProcessor w :
  container w (name table)
    !! generateCacheId (ApiCacheRequest.api req) (ApiCacheRequest.parameters req) = None ->
  engine req ReadCacheFirst dataProcessor w = (Throw (DbReadError NotFound), w).
Proof.
  intros H. unfold requestWithCaching. cbn [ApiCacheOption_eqb negb].
  apply bind_Throw, bind_Throw, apiRequestReadCache_missing, H.
Qed.

Lemma ReadCacheFirst_expired req dataProcessor w data w1 :
  apiRequestReadCache table req w = (Return None, w) ->
  dataProcessor w = (Return data, w1) ->
  truthy data = true ->
  engine req ReadCacheFirst dataProcessor w = (Throw TypeError, w1).
Proof.
  intros Hread Hdata Htruthy. unfold requestWithCaching.
  cbn [ApiCacheOption_eqb negb orb andb].
  rewrite !bind_run, Hread. msimpl.
  rewrite Hdata, Htruthy. reflexivity.
Qed.

End PolicyEngine.

(** C1 (the code departs from the specification): under ReadCacheFirst with no valid
    cache entry the engine never returns an envelope for truthy origin data.
    When the entry is absent the cache read throws the read error NotFound
    before the producer is called; when the entry is stored but expired the
    producer is called and the engine then throws a TypeError on
    [res.api = req.api], [res] being null, before anything is saved. *)
Theorem requestWithCaching_ReadCacheFirst_miss_throws
    (table : Table) (JSON_parse : string -> option value)
    (JSON_stringify : value -> string)
    (req : ApiCacheRequest.t) (dataProcessor : M value) (w : World) :
  (container w (name table)
     !! generateCacheId (ApiCacheRequest.api req) (ApiCacheRequest.parameters req) = None ->
   requestWithCaching table JSON_parse JSON_stringify req ReadCacheFirst dataProcessor w
   = (Throw (DbReadError NotFound), w))
  /\ (forall data w1,
        apiRequestReadCache table req w = (Return None, w) ->
        dataProcessor w = (Return data, w1) ->
        truthy data = true ->
        requestWithCaching table JSON_parse JSON_stringify req ReadCacheFirst dataProcessor w
        = (Throw TypeError, w1)).
Proof.
  split.
  - apply ReadCacheFirst_absent.
  - intros data w1. apply ReadCacheFirst_expired.
Qed.

Lemma requestWithCaching_ReadCacheFirst_miss_witness :
  requestWithCaching Examples.AzureApiRequestCache Examples.JSON_parse
    Examples.JSON_stringify Examples.vmss_A_list ReadCacheFirst Examples.producer
    (Examples.world ∅ 0)
  = (Throw (DbReadError NotFound), Examples.world ∅ 0)
  /\ requestWithCaching Examples.AzureApiRequestCache Examples.JSON_parse
       Examples.JSON_stringify Examples.vmss_A_list ReadCacheFirst Examples.producer
       (Examples.world Examples.cached_list 700000)
     = (Throw TypeError,
        log_call (VmssList "vmss-A") (Examples.world Examples.cached_list 700000)).
Proof.
  split.
  - apply (proj1 (requestWithCaching_ReadCacheFirst_miss_throws
                    Examples.AzureApiRequestCache Examples.JSON_parse
                    Examples.JSON_stringify Examples.vmss_A_list Examples.producer
                    (Examples.world ∅ 0))).
    vm_compute. reflexivity.
  - apply (proj2 (requestWithCaching_ReadCacheFirst_miss_throws
                    Examples.AzureApiRequestCache Examples.JSON_parse
                    Examples.JSON_stringify Examples.vmss_A_list Examples.producer
                    (Examples.world Examples.cached_list 700000))
             (VArr [VNum 1; VNum 2]));
      vm_compute; reflexivity.
Defined.

(** C3 (the code departs from the specification): under ReadApiFirst the engine
    never calls the origin producer.  It behaves exactly as under
    ReadCacheOnly, whatever the producer is: it reads the cache, leaves the
    world as it found it, and a facade called with this option makes no
    origin call. *)
Theorem requestWithCaching_ReadApiFirst_never_calls_origin
    (table : Table) (JSON_parse : string -> option value)
    (JSON_stringify : value -> string)
    (virtualMachineScaleSetVMs_list : string -> option value)
    (req : ApiCacheRequest.t) (dataProcessor : M value)
    (scalingGroupName : string) (w : World) :
  (forall other : M value,
      requestWithCaching table JSON_parse JSON_stringify req ReadApiFirst dataProcessor w
      = requestWithCaching table JSON_parse JSON_stringify req ReadCacheOnly other w)
  /\ (requestWithCaching table JSON_parse JSON_stringify req ReadApiFirst dataProcessor w).2
     = w
  /\ origin_calls
       (listInstances table JSON_parse JSON_stringify virtualMachineScaleSetVMs_list
          scalingGroupName ReadApiFirst w).2
     = origin_calls w.
Proof.
  assert (Heq : forall r d1 d2,
             requestWithCaching table JSON_parse JSON_stringify r ReadApiFirst d1 w
             = requestWithCaching table JSON_parse JSON_stringify r ReadCacheOnly d2 w)
    by reflexivity.
  split; [|split].
  - intros other. apply Heq.
  - rewrite (Heq req dataProcessor dataProcessor). apply ReadCacheOnly_world.
  - unfold listInstances. cbv zeta.
    match goal with
    | |- context [requestWithCaching _ _ _ ?r ReadApiFirst ?d] => rewrite (Heq r d d)
    end.
    rewrite ReadCacheOnly_world. reflexivity.
Qed.

(** On a valid entry ReadApiFirst answers with the cached payload, although
    the producer would have answered with other data. *)
Example requestWithCaching_ReadApiFirst_on_hit :
  requestWithCaching Examples.AzureApiRequestCache Examples.JSON_parse
    Examples.JSON_stringify Examples.vmss_A_list ReadApiFirst
    (fun w => (Return (VNum 7), log_call (VmssList "vmss-A") w))
    (Examples.world Examples.cached_list 2000)
  = (Return {| ApiCache.result := VArr [VNum 1; VNum 2];
               ApiCache.hitCache := true;
               ApiCache.cacheTime := VNum 1000;
               ApiCache.ttl := 600 |},
     Examples.world Examples.cached_list 2000).
Proof. vm_compute. reflexivity. Qed.

(** ** Reading and deleting a cache entry *)

Lemma apiRequestDeleteCache_stored table req w doc :
  primaryKey table = "id" ->
  (forall o, downcast table o = o) ->
  container w (name table)
    !! generateCacheId (ApiCacheRequest.api req) (ApiCacheRequest.parameters req)
  = Some doc ->
  apiRequestDeleteCache table req w
  = (Return tt,
     set_db w (<[name table :=
                   delete (generateCacheId (ApiCacheRequest.api req)
                                           (ApiCacheRequest.parameters req))
                          (container w (name table))]> (db w))).
Proof.
  intros Hpk Hdown Hdoc. unfold apiRequestDeleteCache, deleteItemFromDb.
  rewrite Hdown, Hpk. cbv zeta. msimpl.
  rewrite !prop_insert_eq. cbn [strict_eq].
  rewrite String.eqb_refl. msimpl.
  unfold item_delete. rewrite Hdoc. reflexivity.
Qed.

(** C4 (as amended): under ReadCacheAndDelete, when a valid cache entry
    exists (and its payload parses), the engine deletes the entry and returns
    a null result with cacheTime 0 and hitCache true; the outcome does not
    depend on the origin producer, which is never called. *)
Theorem requestWithCaching_ReadCacheAndDelete_hit
    (table : Table) (JSON_parse : string -> option value)
    (JSON_stringify : value -> string)
    (req : ApiCacheRequest.t) (dataProcessor : M value) (w : World)
    (r : ApiCacheResult.t) (payload : value) :
  primaryKey table = "id" ->
  (forall o, downcast table o = o) ->
  apiRequestReadCache table req w = (Return (Some r), w) ->
  JSON_parse (String (ApiCacheResult.stringifiedData r)) = Some payload ->
  let id := generateCacheId (ApiCacheRequest.api req) (ApiCacheRequest.parameters req) in
  let w' := set_db w (<[name table := delete id (container w (name table))]> (db w)) in
  requestWithCaching table JSON_parse JSON_stringify req ReadCacheAndDelete dataProcessor w
  = (Return {| ApiCache.result := VNull;
               ApiCache.hitCache := true;
               ApiCache.cacheTime := VNum 0;
               ApiCache.ttl := 600 |}, w')
  /\ container w' (name table) !! id = None
  /\ origin_calls w' = origin_calls w.
Proof.
  intros Hpk Hdown Hread Hparse id w'.
  destruct (apiRequestReadCache_hit_stored table req w r w Hread) as [doc Hdoc].
  split; [|split].
  - unfold requestWithCaching. cbn [ApiCacheOption_eqb negb orb andb].
    rewrite !bind_run, Hread. msimpl.
    unfold JSON_parse_value. rewrite Hparse. msimpl.
    rewrite (apiRequestDeleteCache_stored table req w doc Hpk Hdown Hdoc).
    reflexivity.
  - unfold w', container, set_db. cbn [db].
    rewrite lookup_insert_eq. cbn [default]. apply lookup_delete_eq.
  - reflexivity.
Qed.

Lemma requestWithCaching_ReadCacheAndDelete_hit_witness :
  requestWithCaching Examples.AzureApiRequestCache Examples.JSON_parse
    Examples.JSON_stringify Examples.vmss_A_list ReadCacheAndDelete Examples.producer
    (Examples.world Examples.cached_list 2000)
  = (Return {| ApiCache.result := VNull;
               ApiCache.hitCache := true;
               ApiCache.cacheTime := VNum 0;
               ApiCache.ttl := 600 |},
     set_db (Examples.world Examples.cached_list 2000)
       (<["ApiRequestCache" :=
            delete "listInstances-vmss-A"
              (container (Examples.world Examples.cached_list 2000) "ApiRequestCache")]>
          Examples.cached_list)).
Proof.
  refine (proj1 (requestWithCaching_ReadCacheAndDelete_hit
                   Examples.AzureApiRequestCache Examples.JSON_parse
                   Examples.JSON_stringify Examples.vmss_A_list Examples.producer
                   (Examples.world Examples.cached_list 2000)
                   (cached_result
                      (convertRecord Examples.AzureApiRequestCache
                         (Examples.cache_entry "listInstances-vmss-A" "[1,2]" 1000 600000)))
                   (VArr [VNum 1; VNum 2]) _ _ _ _)).
  - reflexivity.
  - intros o. reflexivity.
  - vm_compute. reflexivity.
  - vm_compute. reflexivity.
Defined.

(** C4 as stated fails: the entry of [listInstances-vmss-A] is valid and its
    payload is the list [[1,2]], yet the result returned under
    ReadCacheAndDelete is null, not that payload. *)
Lemma requestWithCaching_ReadCacheAndDelete_drops_payload :
  let w := Examples.world Examples.cached_list 2000 in
  let entry := cached_result
                 (convertRecord Examples.AzureApiRequestCache
                    (Examples.cache_entry "listInstances-vmss-A" "[1,2]" 1000 600000)) in
  apiRequestReadCache Examples.AzureApiRequestCache Examples.vmss_A_list w
  = (Return (Some entry), w)
  /\ Examples.JSON_parse (String (ApiCacheResult.stringifiedData entry))
     = Some (VArr [VNum 1; VNum 2])
  /\ ApiCache.result
       <$> (match (requestWithCaching Examples.AzureApiRequestCache Examples.JSON_parse
                     Examples.JSON_stringify Examples.vmss_A_list ReadCacheAndDelete
                     Examples.producer w).1 with
            | Return envelope => Some envelope
            | Throw _ => None
            end)
     = Some VNull
  /\ VNull <> VArr [VNum 1; VNum 2].
Proof.
  split; [|split; [|split]]; try (vm_compute; reflexivity). discriminate.
Qed.

(** ** Cache ids *)

Lemma generateCacheId_join api parameters :
  generateCacheId api parameters = join "-" (api :: parameters).
Proof.
  unfold generateCacheId. f_equal. f_equal.
  induction parameters as [|p ps IH]; [reflexivity|].
  cbn [List.map String]. f_equal. exact IH.
Qed.

Lemma append_cons c (s r : string) :
  String.String c s +:+ r = String.String c (s +:+ r).
Proof. reflexivity. Qed.

Lemma append_nil (r : string) : EmptyString +:+ r = r.
Proof. reflexivity. Qed.

Lemma append_empty_r (s : string) : s +:+ EmptyString = s.
Proof.
  induction s as [|c s IH]; [reflexivity|]. rewrite append_cons. f_equal. exact IH.
Qed.

Lemma join_cons (x : string) (l : list string) :
  join "-" (x :: l)
  = x +:+ match l with [] => EmptyString | _ :: _ => String.String "-" (join "-" l) end.
Proof.
  destruct l as [|y l].
  - rewrite append_empty_r. reflexivity.
  - reflexivity.
Qed.

Lemma join_tail_dash_led (l : list string) :
  dash_led (match l with [] => EmptyString | _ :: _ => String.String "-" (join "-" l) end).
Proof. destruct l; [left; reflexivity | right; eauto]. Qed.

Lemma dash_led_head c r : dash_led (String.String c r) -> c = "-"%char.
Proof. intros [H|[r' H]]; [discriminate | congruence]. Qed.

Lemma dash_free_head c s : dash_free (String.String c s) = true -> c <> "-"%char.
Proof.
  cbn. intros H ->. rewrite Ascii.eqb_refl in H. discriminate.
Qed.

Lemma dash_free_tail c s : dash_free (String.String c s) = true -> dash_free s = true.
Proof. cbn. intros H. apply andb_prop in H. tauto. Qed.

(** A component without the join character is delimited unambiguously. *)
Lemma append_dash_free_inj (x y r1 r2 : string) :
  dash_free x = true -> dash_free y = true ->
  dash_led r1 -> dash_led r2 ->
  x +:+ r1 = y +:+ r2 -> x = y /\ r1 = r2.
Proof.
  revert y. induction x as [|c x IH]; intros [|d y] Hx Hy H1 H2 E;
    rewrite ?append_cons, ?append_nil in E.
  - split; [reflexivity | exact E].
  - subst r1. apply dash_led_head in H1. apply dash_free_head in Hy. contradiction.
  - subst r2. apply dash_led_head in H2. apply dash_free_head in Hx. contradiction.
  - injection E as -> E.
    destruct (IH y (dash_free_tail _ _ Hx) (dash_free_tail _ _ Hy) H1 H2 E) as [-> ->].
    split; reflexivity.
Qed.

Lemma join_dash_free_inj (l1 l2 : list string) (x y : string) :
  dash_free x = true -> forallb dash_free l1 = true ->
  dash_free y = true -> forallb dash_free l2 = true ->
  join "-" (x :: l1) = join "-" (y :: l2) -> x = y /\ l1 = l2.
Proof.
  revert l2 x y. induction l1 as [|a l1 IH]; intros l2 x y Hx H1 Hy H2 E;
    rewrite (join_cons x), (join_cons y) in E.
  - destruct (append_dash_free_inj _ _ _ _ Hx Hy
                (join_tail_dash_led []) (join_tail_dash_led l2) E) as [-> E'].
    destruct l2; [split; reflexivity | discriminate E'].
  - destruct (append_dash_free_inj _ _ _ _ Hx Hy
                (join_tail_dash_led (a :: l1)) (join_tail_dash_led l2) E) as [-> E'].
    destruct l2 as [|b l2]; [discriminate E'|].
    injection E' as E'. cbn in H1, H2.
    apply andb_prop in H1 as [Ha H1]. apply andb_prop in H2 as [Hb H2].
    destruct (IH l2 a b Ha H1 Hb H2 E') as [-> ->]. split; reflexivity.
Qed.

(** C8 (as amended): [generateCacheId] joins the api name and the parameters
    with the join character, and on api names and parameters that do not
    contain that character two ids are equal exactly when the api names and
    the parameter sequences are equal, so distinct sequences, also the same
    parameters in another order, get distinct ids. *)
Theorem generateCacheId_injective_without_dash
    (api1 api2 : string) (parameters1 parameters2 : list string) :
  dash_free api1 = true -> forallb dash_free parameters1 = true ->
  dash_free api2 = true -> forallb dash_free parameters2 = true ->
  generateCacheId api1 parameters1 = join "-" (api1 :: parameters1)
  /\ (generateCacheId api1 parameters1 = generateCacheId api2 parameters2
      <-> api1 = api2 /\ parameters1 = parameters2).
Proof.
  intros Ha1 Hp1 Ha2 Hp2. split; [apply generateCacheId_join|]. split.
  - rewrite !generateCacheId_join. apply join_dash_free_inj; assumption.
  - intros [-> ->]. reflexivity.
Qed.

Lemma generateCacheId_injective_without_dash_witness :
  generateCacheId "listNetworkInterfaces" ["vmss"; "3"]
  <> generateCacheId "listNetworkInterfaces" ["3"; "vmss"].
Proof.
  intros E.
  apply (proj2 (generateCacheId_injective_without_dash
                  "listNetworkInterfaces" "listNetworkInterfaces"
                  ["vmss"; "3"] ["3"; "vmss"]
                  eq_refl eq_refl eq_refl eq_refl)) in E.
  destruct E as [_ E]. discriminate E.
Defined.

(** C8 as stated fails: two distinct parameter sequences, one a reordering of
    the other, get the same id when a parameter contains the join
    character. *)
Lemma generateCacheId_collision :
  generateCacheId "describeInstance" ["a"; "a-a"]
  = generateCacheId "describeInstance" ["a-a"; "a"]
  /\ ["a"; "a-a"] <> ["a-a"; "a"]
  /\ Permutation ["a"; "a-a"] ["a-a"; "a"].
Proof.
  split; [reflexivity|]. split; [discriminate|]. apply perm_swap.
Qed.

(** ** Deleting with the consistency check *)

Lemma try_catch_Return {A} (m : M A) handler w a w' :
  m w = (Return a, w') -> try_catch m handler w = (Return a, w').
Proof. intros H. unfold try_catch. rewrite H. reflexivity. Qed.

Lemma try_catch_Throw {A} (m : M A) handler w e w' :
  m w = (Throw e, w') -> try_catch m handler w = handler e w'.
Proof. intros H. unfold try_catch. rewrite H. reflexivity. Qed.

Lemma Object_keys_spec (item : Item) (k : string) :
  k ∈ Object_keys item <-> is_Some (item !! k).
Proof.
  unfold Object_keys. rewrite list_elem_of_fmap. split.
  - intros [[k' v] [-> Hin]]. apply elem_of_map_to_list in Hin. eauto.
  - intros [v Hv]. exists (k, v). split; [reflexivity|].
    apply elem_of_map_to_list, Hv.
Qed.

Lemma filter_nil_iff {A} (f : A -> bool) (l : list A) :
  List.filter f l = [] <-> forall x, x ∈ l -> f x = false.
Proof.
  induction l as [|a l IH]; cbn.
  - split; [intros _ x Hx; inversion Hx | reflexivity].
  - destruct (f a) eqn:Ea.
    + split; [discriminate|]. intros H.
      specialize (H a (list_elem_of_here a l)). congruence.
    + rewrite IH. split.
      * intros H x Hx. inversion Hx; subst; auto.
      * intros H x Hx. apply H. constructor. exact Hx.
Qed.

Lemma prop_lookup (item : Item) k v : item !! k = Some v -> prop item k = v.
Proof. intros H. unfold prop. rewrite H. reflexivity. Qed.

(** [keyDiff] is empty exactly when every field of the snapshot equals the
    item's field of the same name. *)
Lemma keyDiff_nil_iff (itemSnapshot item : Item) :
  keyDiff itemSnapshot item = []
  <-> forall f v, itemSnapshot !! f = Some v -> strict_eq v (prop item f) = true.
Proof.
  unfold keyDiff. rewrite filter_nil_iff. split.
  - intros H f v Hf.
    specialize (H f (proj2 (Object_keys_spec itemSnapshot f) (ex_intro _ v Hf))).
    rewrite (prop_lookup _ _ _ Hf) in H. apply negb_false_iff in H. exact H.
  - intros H f Hin. apply Object_keys_spec in Hin as [v Hf].
    rewrite (prop_lookup _ _ _ Hf), (H f v Hf). reflexivity.
Qed.

Lemma length_positive_iff {A} (l : list A) : Nat.ltb 0 (length l) = false <-> l = [].
Proof. destruct l; cbn; split; congruence. Qed.

Section DeleteConsistent.

Variable table : Table.
Variable item : Item.
Variable w : World.
Hypothesis valid : validateInput table item = None.

(** The id the snapshot is read by. *)
Local Abbreviation k := (String (prop item (primaryKey table))).

Lemma delete_snapshot_missing :
  container w (name table) !! k = None ->
  deleteItemFromDb table item true w = (Throw (DbDeleteError NotFound), w).
Proof.
  intros Hk. unfold deleteItemFromDb.
  apply bind_Throw.
  rewrite (bind_Return _ _ _ _ _ (validate_passes table item w valid)).
  apply bind_Throw.
  rewrite (try_catch_Throw _ _ _ _ _ (getItemFromDb_missing table _ k w Hk)).
  reflexivity.
Qed.

Lemma delete_snapshot_differs doc f v :
  container w (name table) !! k = Some doc ->
  convertRecord table doc !! f = Some v ->
  strict_eq v (prop item f) = false ->
  deleteItemFromDb table item true w = (Throw (DbDeleteError InconsistentData), w).
Proof.
  intros Hk Hf Hne. unfold deleteItemFromDb.
  apply bind_Throw.
  rewrite (bind_Return _ _ _ _ _ (validate_passes table item w valid)).
  rewrite (bind_Return _ _ _ _ _
             (try_catch_Return _ _ _ _ _ (getItemFromDb_found table _ k w doc Hk))).
  destruct (Nat.ltb 0 (length (keyDiff (convertRecord table doc) item))) eqn:E;
    [reflexivity|].
  apply length_positive_iff in E.
  rewrite keyDiff_nil_iff in E. rewrite (E f v Hf) in Hne. discriminate.
Qed.

Lemma delete_snapshot_matches doc :
  container w (name table) !! k = Some doc ->
  (forall f v, convertRecord table doc !! f = Some v ->
               strict_eq v (prop item f) = true) ->
  prop item (primaryKey table) = VStr k ->
  prop item "id" = VStr k ->
  let w' := set_db w (<[name table := delete k (container w (name table))]> (db w)) in
  deleteItemFromDb table item true w = (Return tt, w')
  /\ getItemFromDb table
       [ {| key := primaryKey table; value_of := VStr k |} ] w'
     = (Throw (DbReadError NotFound), w').
Proof.
  intros Hk Hall Hpk Hid w'. split.
  - unfold deleteItemFromDb.
    rewrite (bind_Return _ _ _ tt w).
    + rewrite Hpk, Hid. cbn [strict_eq]. rewrite String.eqb_refl. cbn [negb].
      rewrite bind_run. unfold item_delete. rewrite Hk. reflexivity.
    + rewrite (bind_Return _ _ _ _ _ (validate_passes table item w valid)).
      rewrite (bind_Return _ _ _ _ _
                 (try_catch_Return _ _ _ _ _ (getItemFromDb_found table _ k w doc Hk))).
      apply keyDiff_nil_iff in Hall. rewrite Hall. reflexivity.
  - apply getItemFromDb_missing.
    unfold w', container, set_db. cbn [db].
    rewrite lookup_insert_eq. cbn [default]. apply lookup_delete_eq.
Qed.

End DeleteConsistent.

(** X24: with [ensureDataConsistency] the delete of a valid item re-reads
    the snapshot by the stringified primary-key value and turns a snapshot
    that is not found into the delete error NotFound; it fails with
    InconsistentData as soon as one field of the stored snapshot differs
    from the item's field of the same name; and when every snapshot field
    equals the item's and the item's id and primary key are that same
    string, the delete succeeds and a following get of that key fails with
    the read error NotFound. *)
Theorem deleteItemFromDb_ensureDataConsistency
    (table : Table) (item : Item) (w : World) :
  validateInput table item = None ->
  let k := String (prop item (primaryKey table)) in
  (container w (name table) !! k = None ->
   deleteItemFromDb table item true w = (Throw (DbDeleteError NotFound), w))
  /\ (forall doc f v,
        container w (name table) !! k = Some doc ->
        convertRecord table doc !! f = Some v ->
        strict_eq v (prop item f) = false ->
        deleteItemFromDb table item true w
        = (Throw (DbDeleteError InconsistentData), w))
  /\ (forall doc,
        container w (name table) !! k = Some doc ->
        (forall f v, convertRecord table doc !! f = Some v ->
                     strict_eq v (prop item f) = true) ->
        prop item (primaryKey table) = VStr k ->
        prop item "id" = VStr k ->
        exists w',
          deleteItemFromDb table item true w = (Return tt, w')
          /\ getItemFromDb table
               [ {| key := primaryKey table; value_of := VStr k |} ] w'
             = (Throw (DbReadError NotFound), w')).
Proof.
  intros Hv k. split; [|split].
  - apply delete_snapshot_missing, Hv.
  - intros doc f v. apply delete_snapshot_differs, Hv.
  - intros doc Hk Hall Hpk Hid.
    eexists. apply (delete_snapshot_matches table item w Hv doc Hk Hall Hpk Hid).
Qed.

Lemma deleteItemFromDb_ensureDataConsistency_witness :
  let w := Examples.world Examples.settings_db 0 in
  deleteItemFromDb Examples.AzureSettings (Examples.setting "k1" "k1" "changed") true w
  = (Throw (DbDeleteError InconsistentData), w)
  /\ exists w',
      deleteItemFromDb Examples.AzureSettings (Examples.setting "k1" "k1" "v") true w
      = (Return tt, w')
      /\ getItemFromDb Examples.AzureSettings
           [ {| key := "settingKey"; value_of := VStr "k1" |} ] w'
         = (Throw (DbReadError NotFound), w').
Proof.
  split.
  - apply (proj1 (proj2 (deleteItemFromDb_ensureDataConsistency
                           Examples.AzureSettings
                           (Examples.setting "k1" "k1" "changed")
                           (Examples.world Examples.settings_db 0) eq_refl))
             (Examples.setting "k1" "k1" "v") "settingValue" (VStr "v"));
      vm_compute; reflexivity.
  - apply (proj2 (proj2 (deleteItemFromDb_ensureDataConsistency
                           Examples.AzureSettings
                           (Examples.setting "k1" "k1" "v")
                           (Examples.world Examples.settings_db 0) eq_refl))
             (Examples.setting "k1" "k1" "v")).
    + vm_compute. reflexivity.
    + apply keyDiff_nil_iff. vm_compute. reflexivity.
    + reflexivity.
    + reflexivity.
Defined.




(** ** The id of a saved item *)

Lemma not_metadata_ne (f : string) :
  f ∉ metadata ->
  "_attachments" <> f /\ "_etag" <> f /\ "_rid" <> f /\ "_self" <> f /\ "_ts" <> f.
Proof.
  unfold metadata. intros H.
  repeat split; intros <-; apply H; repeat constructor.
Qed.

Lemma saveItem_of_prop table item f :
  f ∉ metadata -> f <> "id" -> prop (saveItem_of table item) f = prop item f.
Proof.
  intros Hm Hid. apply not_metadata_ne in Hm as (H1 & H2 & H3 & H4 & H5).
  unfold saveItem_of. cbv zeta.
  rewrite !prop_delete_ne by assumption.
  apply prop_insert_ne. congruence.
Qed.

Lemma saveItem_of_metadata table item m :
  m ∈ metadata -> saveItem_of table item !! m = None.
Proof.
  unfold metadata, saveItem_of. cbv zeta. intros H.
  repeat (apply elem_of_cons in H as [->|H]); [..|inversion H];
    repeat first [apply lookup_delete_eq | rewrite lookup_delete_ne by discriminate].
Qed.

(** The id handed to the upsert: the item's id when it is truthy, the
    stringified primary-key value for every falsy id. *)
Lemma saveItem_of_id table item :
  prop (saveItem_of table item) "id"
  = if truthy (prop item "id") then prop item "id"
    else VStr (String (prop item (primaryKey table))).
Proof.
  unfold saveItem_of. cbv zeta.
  rewrite !prop_delete_ne by discriminate. rewrite prop_insert_eq.
  unfold JS.or, JS.and.
  destruct (truthy (prop item "id")) eqn:E.
  - repeat first [rewrite E | progress cbv iota]. reflexivity.
  - cbn [truthy].
    destruct (is_zero (Number (prop item "id")));
      repeat first [rewrite E | progress cbv iota]; reflexivity.
Qed.

Lemma stored_form_prop w k (body : Item) f :
  f ∉ metadata -> prop (stored_form w k body) f = prop body f.
Proof.
  intros Hm. apply not_metadata_ne in Hm as (H1 & H2 & H3 & H4 & H5).
  unfold stored_form. rewrite !prop_insert_ne by assumption.
  unfold prop. destruct (body !! f) as [v|] eqn:E.
  - destruct (is_undefined v) eqn:U.
    + rewrite (map_lookup_filter_None_2 _ body f).
      * destruct v; try discriminate U. reflexivity.
      * right. intros x Hx. cbn. congruence.
    + rewrite (map_lookup_filter_Some_2 _ body f v E U). reflexivity.
  - rewrite (map_lookup_filter_None_2 _ body f); [reflexivity | left; exact E].
Qed.

(** What a successful save did: the upsert stored the document made from
    [saveItem_of] under its id, and the converted document is returned. *)
Lemma saveItemToDb_Return table item condition ensureDataConsistency w r w' :
  saveItemToDb table item condition ensureDataConsistency w = (Return r, w') ->
  exists k,
    prop (saveItem_of table item) "id" = VStr k
    /\ r = convertRecord table (stored_form w k (saveItem_of table item))
    /\ w' = bump_revision
              (set_db w (<[name table :=
                             <[k := stored_form w k (saveItem_of table item)]>
                               (container w (name table))]> (db w))).
Proof.
  unfold saveItemToDb. rewrite bind_run. unfold validate.
  destruct (validateInput table item); [discriminate|]. unfold ret at 1.
  rewrite bind_run.
  destruct (getItemFromDb_outcome table (primaryKey table) (prop item "id") w)
    as [(k0 & doc0 & _ & _ & ->)|[code ->]]; [|discriminate].
  cbv zeta. cbn [present negb].
  repeat match goal with
         | |- context [if ?b then throw _ else _] => destruct b; [discriminate|]
         end.
  rewrite bind_run. unfold items_upsert.
  destruct (prop (saveItem_of table item) "id") as [| | | | |k| |]; try discriminate.
  match goal with
  | |- context [if ?b then (_, bump_revision _) else _] => destruct b; [|discriminate]
  end.
  destruct (container w (name table) !! k); cbn; intros [= <- <-]; eauto.
Qed.

Lemma stored_container w table_name k doc :
  container (bump_revision
               (set_db w (<[table_name := <[k := doc]> (container w table_name)]> (db w))))
            table_name !! k
  = Some doc.
Proof.
  unfold container, bump_revision, set_db. cbn [db].
  rewrite lookup_insert_eq. cbn [default]. apply lookup_insert_eq.
Qed.

(** C7 (as amended): the item handed to the upsert has the store metadata
    removed; its id is the item's own id whenever that id is truthy, and the
    stringified primary-key value when the id is undefined, null or the
    empty string; after a successful save the record is stored under that id
    and carries it in its [id] field. *)
Theorem saveItemToDb_sets_id
    (table : Table) (item : Item) (condition : SaveCondition)
    (ensureDataConsistency : bool) (w : World) :
  let saveItem := saveItem_of table item in
  (forall m, m ∈ metadata -> saveItem !! m = None)
  /\ (truthy (prop item "id") = true -> prop saveItem "id" = prop item "id")
  /\ (prop item "id" = VUndef \/ prop item "id" = VNull \/ prop item "id" = VStr EmptyString ->
      prop saveItem "id" = VStr (String (prop item (primaryKey table))))
  /\ (forall r w',
        saveItemToDb table item condition ensureDataConsistency w = (Return r, w') ->
        exists k doc,
          prop saveItem "id" = VStr k
          /\ container w' (name table) !! k = Some doc
          /\ prop doc "id" = VStr k
          /\ r = convertRecord table doc).
Proof.
  intros saveItem. split; [|split; [|split]].
  - intros m. apply saveItem_of_metadata.
  - intros H. unfold saveItem. rewrite saveItem_of_id, H. reflexivity.
  - intros H. unfold saveItem. rewrite saveItem_of_id.
    destruct H as [-> | [-> | ->]]; reflexivity.
  - intros r w' H.
    apply saveItemToDb_Return in H as (k & Hk & -> & ->).
    exists k, (stored_form w k (saveItem_of table item)).
    split; [exact Hk|]. split; [apply stored_container|]. split; [|reflexivity].
    rewrite stored_form_prop; [exact Hk|].
    unfold metadata. intros Hin.
    repeat (apply elem_of_cons in Hin as [Hin|Hin]; [discriminate Hin|]).
    inversion Hin.
Qed.

Lemma saveItemToDb_sets_id_witness :
  let item := Examples.setting "k1" "k1" "new" in
  let w := Examples.world Examples.settings_db 0 in
  prop (saveItem_of Examples.AzureSettings item) "id" = VStr "k1"
  /\ prop (saveItem_of Examples.AzureSettings (<["id" := VStr EmptyString]> item)) "id" = VStr "k1"
  /\ exists k doc,
      prop (saveItem_of Examples.AzureSettings item) "id" = VStr k
      /\ container (saveItemToDb Examples.AzureSettings item Upsert true w).2 "Settings" !! k
         = Some doc
      /\ prop doc "id" = VStr k
      /\ (saveItemToDb Examples.AzureSettings item Upsert true w).1
         = Return (convertRecord Examples.AzureSettings doc).
Proof.
  intros item w.
  pose proof (saveItemToDb_sets_id Examples.AzureSettings item Upsert true w)
    as (_ & Hown & _ & Hsaved).
  pose proof (saveItemToDb_sets_id Examples.AzureSettings (<["id" := VStr EmptyString]> item)
                Upsert true w) as (_ & _ & Hfallback & _).
  split; [|split].
  - apply Hown. reflexivity.
  - apply Hfallback. right. right. reflexivity.
  - destruct (saveItemToDb Examples.AzureSettings item Upsert true w) as [out w'] eqn:E.
    assert (Hout : exists r, out = Return r)
      by (eexists; apply (f_equal fst) in E; vm_compute in E; symmetry; exact E).
    destruct Hout as [r ->].
    destruct (Hsaved r w' eq_refl) as (k & doc & H1 & H2 & H3 & ->).
    exists k, doc. auto.
Defined.

(** C7 as stated fails: the item below has the id [a] and the primary-key
    value [b]; its save succeeds, and the stored record keeps the id [a],
    which is not its primary-key value. *)
Lemma saveItemToDb_id_differs_from_primary_key :
  let w := Examples.world {[ "Settings" := {[ "a" := Examples.setting "a" "a" "v" ]} ]} 0 in
  let item := Examples.setting "a" "b" "v" in
  match saveItemToDb Examples.AzureSettings item Upsert false w with
  | (Return r, w') =>
      match container w' "Settings" !! "a" with
      | Some doc =>
          prop doc "id" = VStr "a"
          /\ prop doc (primaryKey Examples.AzureSettings) = VStr "b"
          /\ strict_eq (prop doc "id") (prop doc (primaryKey Examples.AzureSettings)) = false
      | None => False
      end
  | (Throw _, _) => False
  end.
Proof. vm_compute. repeat split. Qed.

(** An id that is the number zero is not kept either: the saved id is the
    stringified primary-key value. *)
Example saveItem_of_numeric_zero_id :
  prop (saveItem_of Examples.AzureSettings
          (<["id" := VNum 0]> (Examples.setting "ignored" "k1" "v"))) "id"
  = VStr "k1".
Proof. vm_compute. reflexivity. Qed.

(** ** The time-to-live across a write and a read *)





(** ** Calls to the origin *)

Lemma quiet_ret {A} (a : A) : quiet (ret a).
Proof. intros w. reflexivity. Qed.

Lemma quiet_throw {A} (e : exn) : quiet (@throw A e).
Proof. intros w. reflexivity. Qed.

Lemma quiet_bind {A B} (m : M A) (k : A -> M B) :
  quiet m -> (forall a, quiet (k a)) -> quiet (m ≫= k).
Proof.
  intros Hm Hk w. rewrite bind_run. specialize (Hm w).
  destruct (m w) as [[a|e] w1]; cbn [snd] in *.
  - rewrite Hk. exact Hm.
  - exact Hm.
Qed.

Lemma quiet_try_catch {A} (m : M A) (handler : exn -> M A) :
  quiet m -> (forall e, quiet (handler e)) -> quiet (try_catch m handler).
Proof.
  intros Hm Hh w. unfold try_catch. specialize (Hm w).
  destruct (m w) as [[a|e] w1]; cbn [snd] in *.
  - exact Hm.
  - rewrite Hh. exact Hm.
Qed.

Lemma quiet_item_read table_name id : quiet (item_read table_name id).
Proof. intros w. rewrite item_read_world. reflexivity. Qed.

Lemma quiet_items_upsert table_name body options :
  quiet (items_upsert table_name body options).
Proof.
  intros w. unfold items_upsert.
  destruct (prop body "id"); try reflexivity.
  match goal with |- context [if ?b then _ else _] => destruct b end; reflexivity.
Qed.

Lemma quiet_item_delete table_name id : quiet (item_delete table_name id).
Proof.
  intros w. unfold item_delete. destruct id; try reflexivity.
  destruct (container w table_name !! s); reflexivity.
Qed.

Lemma quiet_validate table item : quiet (validate table item).
Proof. unfold validate. destruct (validateInput table item); intros w; reflexivity. Qed.

Create HintDb quiet.
#[local] Hint Resolve quiet_ret quiet_throw quiet_item_read quiet_items_upsert
  quiet_item_delete quiet_validate : quiet.

(** Splits a computation along its binds and branches. *)
Ltac quiet_steps :=
  repeat first
    [ solve [auto with quiet]
    | apply quiet_bind; [|intros ?]
    | apply quiet_try_catch; [|intros ?]
    | match goal with
      | |- quiet (if ?b then _ else _) => destruct b
      | |- quiet (match ?x with _ => _ end) => destruct x
      | |- quiet (let _ := _ in _) => cbv zeta
      end ].

Lemma quiet_getItemFromDb table partitionKeys : quiet (getItemFromDb table partitionKeys).
Proof. unfold getItemFromDb. quiet_steps. Qed.
#[local] Hint Resolve quiet_getItemFromDb : quiet.

Lemma quiet_saveItemToDb table item condition ensureDataConsistency :
  quiet (saveItemToDb table item condition ensureDataConsistency).
Proof. unfold saveItemToDb. quiet_steps. Qed.

Lemma quiet_deleteItemFromDb table item ensureDataConsistency :
  quiet (deleteItemFromDb table item ensureDataConsistency).
Proof. unfold deleteItemFromDb. quiet_steps. Qed.
#[local] Hint Resolve quiet_saveItemToDb quiet_deleteItemFromDb : quiet.

Lemma quiet_apiRequestDeleteCache table req : quiet (apiRequestDeleteCache table req).
Proof. unfold apiRequestDeleteCache. cbv zeta. auto with quiet. Qed.

Lemma quiet_apiRequestReadCache table req : quiet (apiRequestReadCache table req).
Proof. intros w. rewrite apiRequestReadCache_world. reflexivity. Qed.

Lemma quiet_JSON_parse_value parse text : quiet (JSON_parse_value parse text).
Proof. intros w. rewrite JSON_parse_value_world. reflexivity. Qed.
#[local] Hint Resolve quiet_apiRequestDeleteCache quiet_apiRequestReadCache
  quiet_JSON_parse_value : quiet.

Section OriginCalls.

Variable table : Table.
Variable JSON_parse : string -> option value.
Variable JSON_stringify : value -> string.

(** A producer that makes the one call [c] and answers [v]. *)
Variable c : OriginCall.
Variable v : value.
Variable dataProcessor : M value.
Hypothesis one_call : forall w, dataProcessor w = (Return v, log_call c w).

Local Abbreviation engine := (requestWithCaching table JSON_parse JSON_stringify).

Lemma quiet_engine_without_origin req cacheOption :
  cacheOption = ReadApiFirst \/ cacheOption = ReadCacheOnly
  \/ cacheOption = ReadCacheAndDelete ->
  quiet (engine req cacheOption dataProcessor).
Proof.
  intros [-> | [-> | ->]]; unfold requestWithCaching;
    cbn [ApiCacheOption_eqb negb orb andb]; quiet_steps.
Qed.

Lemma engine_origin_calls req cacheOption w :
  origin_calls (engine req cacheOption dataProcessor w).2
  = (origin_calls w
     ++ (if origin_consulted cacheOption (apiRequestReadCache table req w).1
         then [c] else []))%list.
Proof.
  destruct cacheOption.
  - rewrite quiet_engine_without_origin by auto. cbn. apply eq_sym, app_nil_r.
  - unfold requestWithCaching. cbn [ApiCacheOption_eqb negb orb andb origin_consulted].
    msimpl. rewrite one_call. destruct (truthy v); reflexivity.
  - rewrite quiet_engine_without_origin by auto. cbn. apply eq_sym, app_nil_r.
  - unfold requestWithCaching. cbn [ApiCacheOption_eqb negb orb andb].
    rewrite !bind_run.
    destruct (apiRequestReadCache_outcome table req w) as [[o ->]|[code ->]];
      cbn [fst origin_consulted]; [|cbn; apply eq_sym, app_nil_r].
    destruct o as [r|]; msimpl.
    + pose proof (JSON_parse_value_world JSON_parse (ApiCacheResult.stringifiedData r) w)
        as Hw.
      destruct (JSON_parse_value JSON_parse (ApiCacheResult.stringifiedData r) w)
        as [[p|e] w1]; cbn [snd] in Hw; subst w1; cbn; apply eq_sym, app_nil_r.
    + rewrite one_call. destruct (truthy v); reflexivity.
  - rewrite quiet_engine_without_origin by auto. cbn. apply eq_sym, app_nil_r.
Qed.

End OriginCalls.

Section Facades.

Variable table : Table.
Variable JSON_parse : string -> option value.
Variable JSON_stringify : value -> string.
Variable virtualMachineScaleSetVMs_list : string -> option value.
Variable virtualMachineScaleSetVMs_get : string -> string -> value.

Local Abbreviation list_instances :=
  (listInstances table JSON_parse JSON_stringify virtualMachineScaleSetVMs_list).
Local Abbreviation describe_instance :=
  (describeInstance table JSON_parse JSON_stringify
     virtualMachineScaleSetVMs_list virtualMachineScaleSetVMs_get).

Lemma listInstances_origin_calls scalingGroupName cacheOption w :
  origin_calls (list_instances scalingGroupName cacheOption w).2
  = (origin_calls w
     ++ (if origin_consulted cacheOption
              (apiRequestReadCache table (list_request scalingGroupName) w).1
         then [VmssList scalingGroupName] else []))%list.
Proof.
  unfold listInstances. cbv zeta.
  apply (engine_origin_calls table JSON_parse JSON_stringify
           (VmssList scalingGroupName)
           (match virtualMachineScaleSetVMs_list scalingGroupName with
            | Some parsedBody => JS.or parsedBody VNull
            | None => VNull
            end)).
  intros w0. rewrite bind_run. unfold origin. cbv beta iota.
  destruct (virtualMachineScaleSetVMs_list scalingGroupName); reflexivity.
Qed.

(** With an id that is not numeric, [describeInstance] does what
    [listInstances] does and then only searches the list it got. *)
Lemma describeInstance_by_vmId scalingGroupName id cacheOption w :
  isFinite (Number (VStr id)) = false ->
  (describe_instance scalingGroupName id cacheOption w).2
  = (list_instances scalingGroupName cacheOption w).2
  /\ forall envelope,
      (describe_instance scalingGroupName id cacheOption w).1 = Return envelope ->
      exists listResult list,
        (list_instances scalingGroupName cacheOption w).1 = Return listResult
        /\ ApiCache.result listResult = VArr list
        /\ find_by_vmId id list = Return (ApiCache.result envelope)
        /\ ApiCache.hitCache envelope = ApiCache.hitCache listResult
        /\ ApiCache.cacheTime envelope = ApiCache.cacheTime listResult.
Proof.
  intros Hid. unfold describeInstance. rewrite Hid. rewrite bind_run.
  destruct (list_instances scalingGroupName cacheOption w) as [[listResult|e] w1];
    cbn [fst snd]; [|split; [reflexivity | discriminate]].
  rewrite bind_run.
  destruct (ApiCache.result listResult) as [| | | | | |list|] eqn:R;
    try (split; [reflexivity | discriminate]).
  destruct (find_by_vmId id list) as [found|e] eqn:F;
    [|split; [reflexivity | discriminate]].
  split; [reflexivity|].
  intros envelope [= <-]. exists listResult, list. cbn. auto.
Qed.

End Facades.

(** X25: in one invocation [describeInstance] makes exactly the origin call
    of its branch, the single-instance get for a numeric id and the list
    call otherwise, when the policy engine consults the origin (under
    ReadApiOnly, and under ReadCacheFirst after a cache read that returned
    no entry), and no origin call at all otherwise; with an id that is not
    numeric it leaves the world as [listInstances] does, and an envelope it
    returns has the hit flag and the cache time of the listing's. *)
Theorem describeInstance_origin_calls
    (table : Table) (JSON_parse : string -> option value)
    (JSON_stringify : value -> string)
    (virtualMachineScaleSetVMs_list : string -> option value)
    (virtualMachineScaleSetVMs_get : string -> string -> value)
    (scalingGroupName id : string) (cacheOption : ApiCacheOption) (w : World) :
  let described :=
    describeInstance table JSON_parse JSON_stringify virtualMachineScaleSetVMs_list
      virtualMachineScaleSetVMs_get scalingGroupName id cacheOption w in
  let listed :=
    listInstances table JSON_parse JSON_stringify virtualMachineScaleSetVMs_list
      scalingGroupName cacheOption w in
  if isFinite (Number (VStr id)) then
    origin_calls described.2
    = (origin_calls w
       ++ (if origin_consulted cacheOption
                (apiRequestReadCache table (describe_request scalingGroupName id) w).1
           then [VmssGet scalingGroupName id] else []))%list
  else
    origin_calls described.2
    = (origin_calls w
       ++ (if origin_consulted cacheOption
                (apiRequestReadCache table (list_request scalingGroupName) w).1
           then [VmssList scalingGroupName] else []))%list
    /\ described.2 = listed.2
    /\ forall envelope,
        described.1 = Return envelope ->
        exists listResult list,
          listed.1 = Return listResult
          /\ ApiCache.result listResult = VArr list
          /\ find_by_vmId id list = Return (ApiCache.result envelope)
          /\ ApiCache.hitCache envelope = ApiCache.hitCache listResult
          /\ ApiCache.cacheTime envelope = ApiCache.cacheTime listResult.
Proof.
  intros described listed.
  destruct (isFinite (Number (VStr id))) eqn:Hid.
  - subst described. unfold describeInstance. rewrite Hid. cbv zeta.
    apply (engine_origin_calls table JSON_parse JSON_stringify
             (VmssGet scalingGroupName id)
             (virtualMachineScaleSetVMs_get scalingGroupName id)).
    intros w0. reflexivity.
  - destruct (describeInstance_by_vmId table JSON_parse JSON_stringify
                virtualMachineScaleSetVMs_list virtualMachineScaleSetVMs_get
                scalingGroupName id cacheOption w Hid) as [Hw Hfind].
    split; [|split].
    + subst described. rewrite Hw. apply listInstances_origin_calls.
    + exact Hw.
    + exact Hfind.
Qed.

(** The two ids of the specification's example, under ReadApiOnly: the
    numeric id is fetched directly, the other is found in the listing. *)
Example describeInstance_numeric_id :
  JS.isFinite (JS.Number (VStr "3")) = true
  /\ describeInstance Examples.AzureApiRequestCache Examples.JSON_parse
       Examples.JSON_stringify Examples.vmss_list Examples.vmss_get
       "vmss-A" "3" ReadApiOnly (Examples.world ∅ 0)
     = (Return {| ApiCache.result := Examples.vm "vm-guid-xyz";
                  ApiCache.hitCache := false;
                  ApiCache.cacheTime := VUndef;
                  ApiCache.ttl := 600 |},
        log_call (VmssGet "vmss-A" "3") (Examples.world ∅ 0)).
Proof. split; vm_compute; reflexivity. Qed.

Example describeInstance_vmId :
  JS.isFinite (JS.Number (VStr "vm-guid-xyz")) = false
  /\ describeInstance Examples.AzureApiRequestCache Examples.JSON_parse
       Examples.JSON_stringify Examples.vmss_list Examples.vmss_get
       "vmss-A" "vm-guid-xyz" ReadApiOnly (Examples.world ∅ 0)
     = (Return {| ApiCache.result := Examples.vm "vm-guid-xyz";
                  ApiCache.hitCache := false;
                  ApiCache.cacheTime := VUndef;
                  ApiCache.ttl := 600 |},
        log_call (VmssList "vmss-A") (Examples.world ∅ 0)).
Proof. split; vm_compute; reflexivity. Qed.

Lemma describeInstance_origin_calls_witness :
  origin_calls
    (describeInstance Examples.AzureApiRequestCache Examples.JSON_parse
       Examples.JSON_stringify Examples.vmss_list Examples.vmss_get
       "vmss-A" "3" ReadApiOnly (Examples.world ∅ 0)).2
  = [VmssGet "vmss-A" "3"]
  /\ origin_calls
       (describeInstance Examples.AzureApiRequestCache Examples.JSON_parse
          Examples.JSON_stringify Examples.vmss_list Examples.vmss_get
          "vmss-A" "vm-guid-xyz" ReadCacheFirst
          (Examples.world Examples.cached_list 2000)).2
     = [].
Proof.
  pose proof (describeInstance_origin_calls Examples.AzureApiRequestCache
                Examples.JSON_parse Examples.JSON_stringify Examples.vmss_list
                Examples.vmss_get "vmss-A" "3" ReadApiOnly (Examples.world ∅ 0)) as Hget.
  pose proof (describeInstance_origin_calls Examples.AzureApiRequestCache
                Examples.JSON_parse Examples.JSON_stringify Examples.vmss_list
                Examples.vmss_get "vmss-A" "vm-guid-xyz" ReadCacheFirst
                (Examples.world Examples.cached_list 2000)) as Hlist.
  vm_compute in Hget. vm_compute in Hlist. vm_compute.
  exact (conj Hget (proj1 Hlist)).
Defined.

(** ** The default policy on a miss *)

(** The cache read looks at the documents and the clock only: an origin
    call made before it does not change its answer. *)
Lemma apiRequestReadCache_after_call table req c w :
  apiRequestReadCache table req (log_call c w)
  = ((apiRequestReadCache table req w).1, log_call c w).
Proof.
  destruct (container w (name table)
              !! generateCacheId (ApiCacheRequest.api req) (ApiCacheRequest.parameters req))
    as [doc|] eqn:Hdoc.
  - unfold apiRequestReadCache.
    rewrite (bind_Return _ _ _ _ _
               (getItemFromDb_found table (primaryKey table) _ (log_call c w) doc Hdoc)).
    rewrite (bind_Return _ _ _ _ _
               (getItemFromDb_found table (primaryKey table) _ w doc Hdoc)).
    cbv zeta. rewrite !bind_run. unfold Date_now. cbv iota beta.
    change (now (log_call c w)) with (now w).
    match goal with |- context [if ?b then _ else _] => destruct b end; reflexivity.
  - rewrite (apiRequestReadCache_missing table req (log_call c w) Hdoc).
    rewrite (apiRequestReadCache_missing table req w Hdoc). reflexivity.
Qed.

(** C9 (the code departs from the specification): under the default policy
    ReadCacheFirst, [describeInstance] does not issue its one origin call
    and keep the answer for the cache window.  The request is the one of
    the single-instance get for a numeric id and the one of the listing
    otherwise.  When no entry is stored for it, the call fails with the
    read error NotFound and no origin call is made.  When an entry is
    stored but expired and the origin has data, the origin call is made and
    the call fails with a TypeError, nothing being saved: the same call
    issued again makes the origin call a second time and fails again. *)
Theorem describeInstance_ReadCacheFirst_miss
    (table : Table) (JSON_parse : string -> option value)
    (JSON_stringify : value -> string)
    (virtualMachineScaleSetVMs_list : string -> option value)
    (virtualMachineScaleSetVMs_get : string -> string -> value)
    (scalingGroupName id : string) (w : World) :
  let numeric := isFinite (Number (VStr id)) in
  let req := if numeric then describe_request scalingGroupName id
             else list_request scalingGroupName in
  let call := if numeric then VmssGet scalingGroupName id
              else VmssList scalingGroupName in
  let data := if numeric then virtualMachineScaleSetVMs_get scalingGroupName id
              else match virtualMachineScaleSetVMs_list scalingGroupName with
                   | Some parsedBody => JS.or parsedBody VNull
                   | None => VNull
                   end in
  let describe :=
    describeInstance table JSON_parse JSON_stringify virtualMachineScaleSetVMs_list
      virtualMachineScaleSetVMs_get scalingGroupName id ReadCacheFirst in
  (container w (name table)
     !! generateCacheId (ApiCacheRequest.api req) (ApiCacheRequest.parameters req) = None ->
   describe w = (Throw (DbReadError NotFound), w))
  /\ (apiRequestReadCache table req w = (Return None, w) ->
      truthy data = true ->
      describe w = (Throw TypeError, log_call call w)
      /\ describe (log_call call w)
         = (Throw TypeError, log_call call (log_call call w))).
Proof.
  intros numeric req call data describe.
  assert (Hengine : forall w0,
             (container w0 (name table)
                !! generateCacheId (ApiCacheRequest.api req) (ApiCacheRequest.parameters req)
              = None ->
              describe w0 = (Throw (DbReadError NotFound), w0))
             /\ (apiRequestReadCache table req w0 = (Return None, w0) ->
                 truthy data = true ->
                 describe w0 = (Throw TypeError, log_call call w0))).
  { intros w0. subst describe req call data numeric. unfold describeInstance.
    destruct (isFinite (Number (VStr id))); cbv zeta.
    - split.
      + apply ReadCacheFirst_absent.
      + intros Hread Hdata.
        apply (ReadCacheFirst_expired table JSON_parse JSON_stringify _ _ w0
                 (virtualMachineScaleSetVMs_get scalingGroupName id)
                 (log_call (VmssGet scalingGroupName id) w0) Hread eq_refl Hdata).
    - split.
      + intros Hnone. apply bind_Throw. unfold listInstances. cbv zeta.
        apply ReadCacheFirst_absent, Hnone.
      + intros Hread Hdata. apply bind_Throw. unfold listInstances. cbv zeta.
        refine (ReadCacheFirst_expired table JSON_parse JSON_stringify _ _ w0
                  (match virtualMachineScaleSetVMs_list scalingGroupName with
                   | Some parsedBody => JS.or parsedBody VNull
                   | None => VNull
                   end)
                  (log_call (VmssList scalingGroupName) w0) Hread _ Hdata).
        rewrite bind_run. unfold origin. cbv beta iota.
        destruct (virtualMachineScaleSetVMs_list scalingGroupName); reflexivity. }
  split; [apply Hengine|].
  intros Hread Hdata. split; [apply Hengine; assumption|].
  apply Hengine; [|exact Hdata].
  rewrite apiRequestReadCache_after_call, Hread. reflexivity.
Qed.

Lemma describeInstance_ReadCacheFirst_miss_witness :
  let describe :=
    describeInstance Examples.AzureApiRequestCache Examples.JSON_parse
      Examples.JSON_stringify Examples.vmss_list Examples.vmss_get "vmss-A" in
  describe "3" ReadCacheFirst (Examples.world ∅ 0)
  = (Throw (DbReadError NotFound), Examples.world ∅ 0)
  /\ (let w := Examples.world Examples.cached_list 700000 in
      let w1 := log_call (VmssList "vmss-A") w in
      describe "vm-guid-xyz" ReadCacheFirst w = (Throw TypeError, w1)
      /\ describe "vm-guid-xyz" ReadCacheFirst w1
         = (Throw TypeError, log_call (VmssList "vmss-A") w1)).
Proof.
  intros describe. split.
  - apply (proj1 (describeInstance_ReadCacheFirst_miss Examples.AzureApiRequestCache
                    Examples.JSON_parse Examples.JSON_stringify Examples.vmss_list
                    Examples.vmss_get "vmss-A" "3" (Examples.world ∅ 0))).
    vm_compute. reflexivity.
  - apply (proj2 (describeInstance_ReadCacheFirst_miss Examples.AzureApiRequestCache
                    Examples.JSON_parse Examples.JSON_stringify Examples.vmss_list
                    Examples.vmss_get "vmss-A" "vm-guid-xyz"
                    (Examples.world Examples.cached_list 700000)));
      vm_compute; reflexivity.
Defined.


(** * Further properties of the adaptee *)

(** ** The query text of a listing *)

Lemma append_assoc (a b c : string) : (a +:+ b) +:+ c = a +:+ (b +:+ c).
Proof.
  induction a as [|x a IH]; [reflexivity|].
  rewrite !append_cons. f_equal. exact IH.
Qed.

Lemma length_append (a b : string) :
  String.length (a +:+ b) = (String.length a + String.length b)%nat.
Proof.
  induction a as [|x a IH]; [reflexivity|].
  rewrite append_cons. cbn [String.length]. rewrite IH. reflexivity.
Qed.

Lemma substring_prefix (a b : string) :
  String.substring 0 (String.length a) (a +:+ b) = a.
Proof.
  induction a as [|x a IH].
  - destruct b; reflexivity.
  - rewrite append_cons. cbn [String.length String.substring]. f_equal. exact IH.
Qed.

(** Dropping the last four characters undoes a trailing [" AND"]. *)
Lemma substr0_drops_AND (a : string) :
  substr0 (a +:+ " AND") (Z.of_nat (String.length (a +:+ " AND")) - 4) = a.
Proof.
  rewrite length_append. cbn [String.length].
  replace (Z.of_nat (String.length a + 4) - 4)%Z with (Z.of_nat (String.length a)) by lia.
  unfold substr0. destruct (Z.leb (Z.of_nat (String.length a)) 0) eqn:E.
  - apply Z.leb_le in E. destruct a; [reflexivity|]. cbn [String.length] in E. lia.
  - rewrite Nat2Z.id. apply substring_prefix.
Qed.

(** The clause loop writes the clauses separated by [" AND "], with one more
    [" AND"] at the end. *)
Lemma fold_add_clause clause clauses query :
  fold_left add_clause (clause :: clauses) query
  = (query +:+ " " +:+ join " AND " (List.map clause_text (clause :: clauses))) +:+ " AND".
Proof.
  revert clause query. induction clauses as [|next clauses IH]; intros clause query.
  - cbn [fold_left List.map join]. unfold add_clause, clause_text.
    rewrite !append_assoc. reflexivity.
  - change (fold_left add_clause (clause :: next :: clauses) query)
      with (fold_left add_clause (next :: clauses) (add_clause query clause)).
    rewrite IH.
    change (join " AND " (List.map clause_text (clause :: next :: clauses)))
      with (clause_text clause +:+ " AND "
            +:+ join " AND " (List.map clause_text (next :: clauses))).
    unfold add_clause, clause_text. rewrite !append_assoc. reflexivity.
Qed.

(** X1: the query that [listItemFromDb] sends selects from the table, with
    the where-clauses, when there are any, as equalities on the clause names
    joined by AND (no AND is left at the end), one query parameter per clause
    in the same order, and a LIMIT only for a positive limit; and
    [listItemFromDb] returns that text with what the store selects, leaving
    the world as it is. *)
Theorem listItemFromDb_query_text
    (items_query : SqlQuerySpec.t -> gmap string Item -> list Item)
    (table : Table) (listClause : option (list CosmosDBQueryWhereClause.t))
    (limit : option Z) (w : World) :
  let clauses := default [] listClause in
  let text :=
    "SELECT * FROM " +:+ name table +:+ " t"
    +:+ (if is_nil clauses then EmptyString
         else " WHERE " +:+ join " AND " (List.map clause_text clauses))
    +:+ (match limit with
         | Some n => if Z.ltb 0 n then " LIMIT " +:+ pretty n else EmptyString
         | None => EmptyString
         end) in
  let spec := querySpec_of table listClause limit in
  SqlQuerySpec.query spec = text
  /\ SqlQuerySpec.parameters spec
     = (if is_nil clauses then None else Some (List.map clause_parameter clauses))
  /\ listItemFromDb items_query table listClause limit w
     = (Return {| CosmosDBQueryResult.query := text;
                  CosmosDBQueryResult.result :=
                    items_query spec (container w (name table)) |}, w).
Proof.
  intros clauses text spec.
  assert (Htext : SqlQuerySpec.query spec = text).
  { subst spec text clauses. unfold querySpec_of. cbv zeta.
    assert (Hlimit : forall q : string,
               match limit with
               | Some n => if truthy (VNum n) && Z.ltb 0 n
                           then q +:+ " LIMIT " +:+ String (VNum n) else q
               | None => q
               end
               = q +:+ match limit with
                       | Some n => if Z.ltb 0 n then " LIMIT " +:+ pretty n
                                   else EmptyString
                       | None => EmptyString
                       end).
    { intros q. destruct limit as [n|]; [|symmetry; apply append_empty_r].
      cbn [truthy String]. destruct (Z.ltb 0 n) eqn:E.
      - apply Z.ltb_lt in E.
        replace (Z.eqb n 0) with false by (symmetry; apply Z.eqb_neq; lia).
        reflexivity.
      - rewrite andb_false_r. symmetry. apply append_empty_r. }
    destruct listClause as [[|clause rest]|]; cbn [default is_nil SqlQuerySpec.query];
      rewrite Hlimit.
    - rewrite !append_assoc. reflexivity.
    - rewrite fold_add_clause, substr0_drops_AND. rewrite !append_assoc. reflexivity.
    - rewrite !append_assoc. reflexivity. }
  split; [exact Htext|]. split.
  - subst spec clauses. unfold querySpec_of. cbv zeta.
    destruct listClause as [[|clause rest]|]; reflexivity.
  - unfold listItemFromDb. cbv zeta. fold spec. rewrite Htext. reflexivity.
Qed.

(** ** Loading the settings *)

Lemma collect_setting_no_records keys settings :
  fold_left (collect_setting ∅) keys settings = settings.
Proof.
  revert settings. induction keys as [|key keys IH]; intros settings; [reflexivity|].
  cbn [fold_left]. unfold collect_setting at 2. rewrite lookup_empty. apply IH.
Qed.

(** X2: [loadSettings] never reads a stored record into its result: the
    first call returns an empty settings map and caches it, whatever the
    settings table holds and whatever the setting names are; a later call
    returns the cached map without reading the store. *)
Theorem loadSettings_returns_no_setting
    (items_query : SqlQuerySpec.t -> gmap string Item -> list Item)
    (AzureSettings : Table) (setting_names : list string)
    (cached : gmap string SettingItem.t) (w : World) :
  loadSettings items_query AzureSettings setting_names None w
  = (Return (∅, Some ∅), w)
  /\ loadSettings items_query AzureSettings setting_names (Some cached) w
     = (Return (cached, Some cached), w).
Proof.
  split; [|reflexivity].
  unfold loadSettings. cbv zeta. rewrite bind_run. unfold listItemFromDb.
  cbv beta iota zeta. rewrite collect_setting_no_records. reflexivity.
Qed.

Example listItemFromDb_query_text_example :
  SqlQuerySpec.query
    (querySpec_of Examples.AzureSettings
       (Some [MoreExamples.clause "settingKey" "k1"; MoreExamples.clause "editable" "true"])
       (Some 5))
  = "SELECT * FROM Settings t WHERE t.settingKey = @settingKey AND t.editable = @editable LIMIT 5".
Proof. vm_compute. reflexivity. Qed.

(** ** Saving: what can and what cannot happen *)

(** A save that throws has written nothing. *)
Lemma saveItemToDb_Throw_world table item condition ensureDataConsistency w e w' :
  saveItemToDb table item condition ensureDataConsistency w = (Throw e, w') -> w' = w.
Proof.
  unfold saveItemToDb. rewrite bind_run. unfold validate.
  destruct (validateInput table item); [intros [= _ <-]; reflexivity|]. unfold ret at 1.
  rewrite bind_run.
  destruct (getItemFromDb_outcome table (primaryKey table) (prop item "id") w)
    as [(k0 & doc0 & _ & _ & ->)|[code ->]]; [|intros [= _ <-]; reflexivity].
  cbv zeta. cbn [present negb].
  repeat match goal with
         | |- context [if ?b then throw _ else _] =>
             destruct b; [intros [= _ <-]; reflexivity|]
         end.
  rewrite bind_run. unfold items_upsert.
  destruct (prop (saveItem_of table item) "id") as [| | | | |k| |];
    try (intros [= _ <-]; reflexivity).
  match goal with
  | |- context [if ?b then (_, bump_revision _) else _] =>
      destruct b; [|intros [= _ <-]; reflexivity]
  end.
  destruct (container w (name table) !! k); cbn; discriminate.
Qed.

(** A save that returns has read a stored record under the item's id, was
    not an InsertOnly save, and passed the primary-key comparison. *)
Lemma saveItemToDb_Return_read table item condition ensureDataConsistency w r w' :
  saveItemToDb table item condition ensureDataConsistency w = (Return r, w') ->
  exists k0 doc0,
    prop item "id" = VStr k0
    /\ container w (name table) !! k0 = Some doc0
    /\ condition <> InsertOnly
    /\ (ensureDataConsistency = true ->
        strict_eq (prop item (primaryKey table))
                  (prop (convertRecord table doc0) (primaryKey table)) = true).
Proof.
  unfold saveItemToDb. rewrite bind_run. unfold validate.
  destruct (validateInput table item); [discriminate|]. unfold ret at 1.
  rewrite bind_run.
  destruct (getItemFromDb_outcome table (primaryKey table) (prop item "id") w)
    as [(k0 & doc0 & Hid & Hdoc & ->)|[code ->]]; [|discriminate].
  cbv zeta. cbn [present negb]. rewrite !andb_true_r, andb_false_r.
  destruct (SaveCondition_eqb condition InsertOnly) eqn:Hcond; [discriminate|].
  destruct (ensureDataConsistency
            && negb (strict_eq (prop item (primaryKey table))
                               (prop (convertRecord table doc0) (primaryKey table))))
    eqn:Hpk; [discriminate|].
  intros _. exists k0, doc0. split; [exact Hid|]. split; [exact Hdoc|]. split.
  - intros ->. discriminate Hcond.
  - intros ->. cbn [andb] in Hpk. apply negb_false_iff in Hpk. exact Hpk.
Qed.

(** Evaluating a save whose record is stored and whose checks pass. *)
Lemma saveItemToDb_existing table item condition ensureDataConsistency w k doc :
  validateInput table item = None ->
  prop item "id" = VStr k ->
  container w (name table) !! k = Some doc ->
  saveItemToDb table item condition ensureDataConsistency w
  = (if SaveCondition_eqb condition InsertOnly then throw (DbSaveError KeyConflict)
     else if ensureDataConsistency
             && negb (strict_eq (prop item (primaryKey table))
                                (prop (convertRecord table doc) (primaryKey table)))
     then throw (DbSaveError InconsistentData)
     else
       result ← items_upsert (name table) (saveItem_of table item)
                  (if ensureDataConsistency
                   then Some (prop (convertRecord table doc) "_etag") else None);
       if Z.eqb (statusCode result) HttpStatusCodes.OK
          || Z.eqb (statusCode result) HttpStatusCodes.CREATED then
         match resource result with
         | None => throw (DbSaveError UnexpectedResponse)
         | Some r => ret (convertRecord table r)
         end
       else throw (DbSaveError UnexpectedResponse)) w.
Proof.
  intros Hv Hid Hdoc. unfold saveItemToDb.
  rewrite (bind_Return _ _ _ _ _ (validate_passes table item w Hv)), Hid.
  rewrite (bind_Return _ _ _ _ _ (getItemFromDb_found table (primaryKey table) k w doc Hdoc)).
  cbv zeta. cbn [present negb]. rewrite !andb_true_r, andb_false_r. reflexivity.
Qed.

(** X3: a save with the condition InsertOnly never succeeds and never
    writes: whatever the item and the store, it throws and leaves the world
    as it was; when the record exists (and the input is valid) the error is
    the save error KeyConflict. *)
Theorem saveItemToDb_InsertOnly_never_succeeds
    (table : Table) (item : Item) (ensureDataConsistency : bool) (w : World) :
  (exists e, saveItemToDb table item InsertOnly ensureDataConsistency w = (Throw e, w))
  /\ forall k doc,
      validateInput table item = None ->
      prop item "id" = VStr k ->
      container w (name table) !! k = Some doc ->
      saveItemToDb table item InsertOnly ensureDataConsistency w
      = (Throw (DbSaveError KeyConflict), w).
Proof.
  split.
  - destruct (saveItemToDb table item InsertOnly ensureDataConsistency w)
      as [[r|e] w'] eqn:E.
    + apply saveItemToDb_Return_read in E as (_ & _ & _ & _ & Hne & _).
      contradiction Hne. reflexivity.
    + apply saveItemToDb_Throw_world in E as ->. eauto.
  - intros k doc Hv Hid Hdoc.
    rewrite (saveItemToDb_existing table item InsertOnly ensureDataConsistency w k doc
               Hv Hid Hdoc).
    reflexivity.
Qed.

Lemma saveItemToDb_InsertOnly_never_succeeds_witness :
  saveItemToDb Examples.AzureSettings (Examples.setting "k1" "k1" "new") InsertOnly true
    (Examples.world Examples.settings_db 0)
  = (Throw (DbSaveError KeyConflict), Examples.world Examples.settings_db 0).
Proof.
  apply (proj2 (saveItemToDb_InsertOnly_never_succeeds Examples.AzureSettings
                  (Examples.setting "k1" "k1" "new") true
                  (Examples.world Examples.settings_db 0))
           "k1" (Examples.setting "k1" "k1" "v"));
    vm_compute; reflexivity.
Defined.

(** The store answers an upsert with a response. *)
Lemma items_upsert_responds table_name body options w :
  exists response w1, items_upsert table_name body options w = (Return response, w1).
Proof.
  unfold items_upsert. destruct (prop body "id"); eauto.
  match goal with |- context [if ?b then _ else _] => destruct b end; eauto.
Qed.

(** X4: a save that fails with anything other than the save error
    UnexpectedResponse has failed before the upsert was issued, on the
    validation, on the read of the snapshot, on the save condition or on the
    comparison of the primary keys, and has written nothing.  (The failure
    after an upsert, which the save reports as UnexpectedResponse, is left
    aside: the store may then have written.) *)
Theorem saveItemToDb_early_failure_writes_nothing
    (table : Table) (item : Item) (condition : SaveCondition)
    (ensureDataConsistency : bool) (w w' : World) (e : exn) :
  saveItemToDb table item condition ensureDataConsistency w = (Throw e, w') ->
  e <> DbSaveError UnexpectedResponse ->
  w' = w
  /\ (validateInput table item = Some e
      \/ (exists code, e = DbReadError code)
      \/ (e = DbSaveError KeyConflict /\ condition = InsertOnly)
      \/ (e = DbSaveError InconsistentData /\ ensureDataConsistency = true)).
Proof.
  unfold saveItemToDb. rewrite bind_run. unfold validate.
  destruct (validateInput table item) as [e0|] eqn:Hv.
  { intros [= <- <-] _. split; [reflexivity | left; reflexivity]. }
  unfold ret at 1. rewrite bind_run.
  destruct (getItemFromDb_outcome table (primaryKey table) (prop item "id") w)
    as [(k0 & doc0 & _ & _ & ->)|[code ->]].
  2: { intros [= <- <-] _. split; [reflexivity | right; left; eauto]. }
  cbv zeta. cbn [present negb]. rewrite !andb_true_r, andb_false_r.
  destruct (SaveCondition_eqb condition InsertOnly) eqn:Hcond.
  { intros [= <- <-] _. split; [reflexivity|]. right. right. left.
    split; [reflexivity|]. destruct condition; try discriminate Hcond. reflexivity. }
  destruct (ensureDataConsistency
            && negb (strict_eq (prop item (primaryKey table))
                               (prop (convertRecord table doc0) (primaryKey table))))
    eqn:Hpk.
  { intros [= <- <-] _. split; [reflexivity|]. right. right. right.
    split; [reflexivity|]. apply andb_prop in Hpk. tauto. }
  rewrite bind_run.
  match goal with
  | |- context [items_upsert ?n ?b ?o w] =>
      destruct (items_upsert_responds n b o w) as (response & w1 & ->)
  end.
  cbv beta iota.
  destruct (Z.eqb (statusCode response) HttpStatusCodes.OK
            || Z.eqb (statusCode response) HttpStatusCodes.CREATED);
    [destruct (resource response)|];
    intros [= <- <-] Hne; try discriminate; contradiction Hne; reflexivity.
Qed.

Lemma saveItemToDb_early_failure_writes_nothing_witness :
  (saveItemToDb Examples.AzureSettings (Examples.setting "k1" "other" "new") Upsert true
     (Examples.world Examples.settings_db 0)).2
  = Examples.world Examples.settings_db 0.
Proof.
  refine (proj1 (saveItemToDb_early_failure_writes_nothing Examples.AzureSettings
                   (Examples.setting "k1" "other" "new") Upsert true
                   (Examples.world Examples.settings_db 0) _
                   (DbSaveError InconsistentData) _ _));
    [vm_compute; reflexivity | discriminate].
Defined.

Lemma container_after_upsert w table_name k doc n :
  container (bump_revision
               (set_db w (<[table_name := <[k := doc]> (container w table_name)]> (db w)))) n
  = if decide (table_name = n) then <[k := doc]> (container w table_name)
    else container w n.
Proof.
  unfold container, bump_revision, set_db. cbn [db].
  rewrite lookup_insert. destruct (decide (table_name = n)); reflexivity.
Qed.

(** X5: a successful save of an item with a truthy id replaces a record
    that was already stored under that id: the container holds the same ids
    afterwards, and no other document, in this or another container, is
    changed.  The save never adds a record. *)
Theorem saveItemToDb_replaces_in_place
    (table : Table) (item : Item) (condition : SaveCondition)
    (ensureDataConsistency : bool) (w w' : World) (r : Item) :
  saveItemToDb table item condition ensureDataConsistency w = (Return r, w') ->
  truthy (prop item "id") = true ->
  exists k old,
    prop item "id" = VStr k
    /\ container w (name table) !! k = Some old
    /\ dom (container w' (name table)) = dom (container w (name table))
    /\ forall n k', (n, k') <> (name table, k) ->
                    container w' n !! k' = container w n !! k'.
Proof.
  intros Hsave Htruthy.
  destruct (saveItemToDb_Return_read _ _ _ _ _ _ _ Hsave) as (k0 & old & Hid & Hold & _ & _).
  apply saveItemToDb_Return in Hsave as (k & Hk & _ & ->).
  rewrite saveItem_of_id, Htruthy, Hid in Hk. injection Hk as <-.
  exists k0, old. split; [exact Hid|]. split; [exact Hold|]. split.
  - rewrite container_after_upsert. rewrite decide_True by reflexivity.
    apply dom_insert_lookup_L. eauto.
  - intros n k' Hne. rewrite container_after_upsert.
    destruct (decide (name table = n)) as [<-|]; [|reflexivity].
    apply lookup_insert_ne. congruence.
Qed.

Lemma saveItemToDb_replaces_in_place_witness :
  let w := Examples.world Examples.settings_db 0 in
  let w' := (saveItemToDb Examples.AzureSettings (Examples.setting "k1" "k1" "new")
               Upsert true w).2 in
  exists k old,
    prop (Examples.setting "k1" "k1" "new") "id" = VStr k
    /\ container w "Settings" !! k = Some old
    /\ dom (container w' "Settings") = dom (container w "Settings")
    /\ forall n k', (n, k') <> ("Settings", k) ->
                    container w' n !! k' = container w n !! k'.
Proof.
  intros w w'.
  destruct (saveItemToDb Examples.AzureSettings (Examples.setting "k1" "k1" "new")
              Upsert true w) as [out w1] eqn:E.
  assert (Hout : exists r, out = Return r)
    by (eexists; apply (f_equal fst) in E; vm_compute in E; symmetry; exact E).
  destruct Hout as [r ->]. subst w'. cbn [snd].
  apply (saveItemToDb_replaces_in_place Examples.AzureSettings
           (Examples.setting "k1" "k1" "new") Upsert true w w1 r E).
  reflexivity.
Defined.

(** X6: save then get is a round trip: after a successful save, a get by
    the saved id returns the very record the save returned, and the stored
    document agrees with the item on every field other than the id and the
    store metadata. *)
Theorem saveItemToDb_then_getItemFromDb
    (table : Table) (item : Item) (condition : SaveCondition)
    (ensureDataConsistency : bool) (w w' : World) (r : Item) :
  saveItemToDb table item condition ensureDataConsistency w = (Return r, w') ->
  exists k doc,
    prop (saveItem_of table item) "id" = VStr k
    /\ getItemFromDb table [ {| key := primaryKey table; value_of := VStr k |} ] w'
       = (Return r, w')
    /\ container w' (name table) !! k = Some doc
    /\ forall f, f ∉ metadata -> f <> "id" -> prop doc f = prop item f.
Proof.
  intros Hsave.
  apply saveItemToDb_Return in Hsave as (k & Hk & -> & ->).
  exists k, (stored_form w k (saveItem_of table item)).
  split; [exact Hk|]. split; [|split].
  - apply getItemFromDb_found, stored_container.
  - apply stored_container.
  - intros f Hm Hid. rewrite stored_form_prop by exact Hm.
    apply saveItem_of_prop; assumption.
Qed.

Lemma saveItemToDb_then_getItemFromDb_witness :
  let w := Examples.world Examples.settings_db 0 in
  let saved := saveItemToDb Examples.AzureSettings (Examples.setting "k1" "k1" "new")
                 Upsert true w in
  getItemFromDb Examples.AzureSettings
    [ {| key := "settingKey"; value_of := VStr "k1" |} ] saved.2
  = (saved.1, saved.2).
Proof.
  intros w saved.
  destruct saved as [out w1] eqn:E. subst saved.
  assert (Hout : exists r, out = Return r)
    by (eexists; apply (f_equal fst) in E; vm_compute in E; symmetry; exact E).
  destruct Hout as [r ->]. cbn [fst snd].
  destruct (saveItemToDb_then_getItemFromDb Examples.AzureSettings
              (Examples.setting "k1" "k1" "new") Upsert true w w1 r E)
    as (k & doc & Hk & Hget & _ & _).
  vm_compute in Hk. injection Hk as <-. exact Hget.
Defined.

(** X7: with the consistency flag, a save whose primary-key value differs
    from the stored snapshot's fails with InconsistentData before anything
    is written. *)
Theorem saveItemToDb_primary_key_mismatch
    (table : Table) (item : Item) (condition : SaveCondition) (w : World)
    (k : string) (doc : Item) :
  validateInput table item = None ->
  prop item "id" = VStr k ->
  container w (name table) !! k = Some doc ->
  condition <> InsertOnly ->
  strict_eq (prop item (primaryKey table))
            (prop (convertRecord table doc) (primaryKey table)) = false ->
  saveItemToDb table item condition true w = (Throw (DbSaveError InconsistentData), w).
Proof.
  intros Hv Hid Hdoc Hcond Hpk.
  rewrite (saveItemToDb_existing table item condition true w k doc Hv Hid Hdoc).
  destruct condition; [contradiction Hcond; reflexivity | |];
    cbn [SaveCondition_eqb andb]; rewrite Hpk; reflexivity.
Qed.

Lemma saveItemToDb_primary_key_mismatch_witness :
  saveItemToDb Examples.AzureSettings (Examples.setting "k1" "other" "new") UpdateOnly true
    (Examples.world Examples.settings_db 0)
  = (Throw (DbSaveError InconsistentData), Examples.world Examples.settings_db 0).
Proof.
  apply (saveItemToDb_primary_key_mismatch Examples.AzureSettings
           (Examples.setting "k1" "other" "new") UpdateOnly
           (Examples.world Examples.settings_db 0) "k1" (Examples.setting "k1" "k1" "v"));
    try (vm_compute; reflexivity).
  discriminate.
Defined.

Lemma saveItemToDb_overwrite
    (table : Table) (item : Item) (condition : SaveCondition)
    (ensureDataConsistency : bool) (w : World) (k : string) (doc : Item) :
  validateInput table item = None ->
  prop item "id" = VStr k ->
  truthy (VStr k) = true ->
  container w (name table) !! k = Some doc ->
  condition <> InsertOnly ->
  (ensureDataConsistency = true ->
   strict_eq (prop item (primaryKey table))
             (prop (convertRecord table doc) (primaryKey table)) = true
   /\ (truthy (prop (convertRecord table doc) "_etag") = true ->
       strict_eq (prop doc "_etag") (prop (convertRecord table doc) "_etag") = true)) ->
  let stored := stored_form w k (saveItem_of table item) in
  saveItemToDb table item condition ensureDataConsistency w
  = (Return (convertRecord table stored),
     bump_revision
       (set_db w (<[name table := <[k := stored]> (container w (name table))]> (db w)))).
Proof.
  intros Hv Hid Htruthy Hdoc Hcond Hens stored.
  rewrite (saveItemToDb_existing table item condition ensureDataConsistency w k doc
             Hv Hid Hdoc).
  replace (SaveCondition_eqb condition InsertOnly) with false
    by (destruct condition; [contradiction Hcond|..]; reflexivity).
  assert (Hsaved : prop (saveItem_of table item) "id" = VStr k)
    by (rewrite saveItem_of_id, Hid, Htruthy; reflexivity).
  destruct ensureDataConsistency.
  - destruct (Hens eq_refl) as [Hpk Hetag]. cbn [andb]. rewrite Hpk. cbn [negb].
    rewrite bind_run. unfold items_upsert. rewrite Hsaved, Hdoc.
    destruct (truthy (prop (convertRecord table doc) "_etag")) eqn:E.
    + rewrite (Hetag eq_refl). reflexivity.
    + reflexivity.
  - cbn [andb]. rewrite bind_run. unfold items_upsert. rewrite Hsaved, Hdoc.
    reflexivity.
Qed.

(** X8: on a stored record, a valid save that is not InsertOnly succeeds
    exactly as an overwrite: without the consistency flag always, with it
    when the primary-key values agree and the revision tag of the snapshot,
    if it has one, is the stored one.  The record returned is the conversion
    of the document the store then holds under the id. *)
Theorem saveItemToDb_updates_existing
    (table : Table) (item : Item) (condition : SaveCondition)
    (ensureDataConsistency : bool) (w : World) (k : string) (doc : Item) :
  validateInput table item = None ->
  prop item "id" = VStr k ->
  truthy (VStr k) = true ->
  container w (name table) !! k = Some doc ->
  condition <> InsertOnly ->
  (ensureDataConsistency = true ->
   strict_eq (prop item (primaryKey table))
             (prop (convertRecord table doc) (primaryKey table)) = true
   /\ (truthy (prop (convertRecord table doc) "_etag") = true ->
       strict_eq (prop doc "_etag") (prop (convertRecord table doc) "_etag") = true)) ->
  let stored := stored_form w k (saveItem_of table item) in
  saveItemToDb table item condition ensureDataConsistency w
  = (Return (convertRecord table stored),
     bump_revision
       (set_db w (<[name table := <[k := stored]> (container w (name table))]> (db w)))).
Proof. apply saveItemToDb_overwrite. Qed.

Lemma saveItemToDb_updates_existing_witness :
  let w := Examples.world Examples.settings_db 0 in
  let item := Examples.setting "k1" "k1" "new" in
  let stored := stored_form w "k1" (saveItem_of Examples.AzureSettings item) in
  saveItemToDb Examples.AzureSettings item UpdateOnly true w
  = (Return stored,
     bump_revision
       (set_db w (<["Settings" := <["k1" := stored]> (container w "Settings")]> (db w)))).
Proof.
  intros w item stored.
  apply (saveItemToDb_updates_existing Examples.AzureSettings item UpdateOnly true w
           "k1" (Examples.setting "k1" "k1" "v"));
    try (vm_compute; reflexivity).
  - discriminate.
  - intros _. split; vm_compute; [reflexivity | discriminate].
Defined.


(** ** Deleting: what can and what cannot happen *)

Lemma strict_eq_VStr k v : strict_eq (VStr k) v = true -> v = VStr k.
Proof.
  destruct v; cbn; try discriminate. intros H. apply String.eqb_eq in H. congruence.
Qed.

(** The consistency check either rejects, without a write, or lets the
    plain delete run. *)
Lemma deleteItemFromDb_checked table item w :
  (exists e, deleteItemFromDb table item true w = (Throw e, w))
  \/ deleteItemFromDb table item true w = deleteItemFromDb table item false w.
Proof.
  unfold deleteItemFromDb.
  destruct (validateInput table item) as [e|] eqn:Hv.
  { left. exists e. apply bind_Throw, bind_Throw. unfold validate. rewrite Hv. reflexivity. }
  destruct (getItemFromDb_outcome table (primaryKey table)
              (VStr (String (prop item (primaryKey table)))) w)
    as [(k & doc & _ & _ & Hget)|[code Hget]].
  - destruct (Nat.ltb 0 (length (keyDiff (convertRecord table doc) item))) eqn:Hd.
    + left. eexists. apply bind_Throw.
      rewrite (bind_Return _ _ _ _ _ (validate_passes table item w Hv)).
      rewrite (bind_Return _ _ _ _ _ (try_catch_Return _ _ _ _ _ Hget)).
      rewrite Hd. reflexivity.
    + right. rewrite (bind_Return _ _ w tt w); [reflexivity|].
      rewrite (bind_Return _ _ _ _ _ (validate_passes table item w Hv)).
      rewrite (bind_Return _ _ _ _ _ (try_catch_Return _ _ _ _ _ Hget)).
      rewrite Hd. reflexivity.
  - left. eexists. apply bind_Throw.
    rewrite (bind_Return _ _ _ _ _ (validate_passes table item w Hv)).
    apply bind_Throw.
    rewrite (try_catch_Throw _ _ _ _ _ Hget). reflexivity.
Qed.

Lemma deleteItemFromDb_plain table item w :
  (exists e, deleteItemFromDb table item false w = (Throw e, w))
  \/ (exists k old,
         prop item "id" = VStr k
         /\ prop item (primaryKey table) = VStr k
         /\ container w (name table) !! k = Some old
         /\ deleteItemFromDb table item false w
            = (Return tt,
               set_db w (<[name table := delete k (container w (name table))]> (db w)))).
Proof.
  unfold deleteItemFromDb. rewrite (bind_Return _ _ w tt w) by reflexivity.
  destruct (strict_eq (prop item (primaryKey table)) VNull); [left; eauto|].
  destruct (strict_eq (prop item "id") (prop item (primaryKey table))) eqn:Heq;
    cbn [negb]; [|left; eauto].
  rewrite bind_run. unfold item_delete.
  destruct (prop item "id") as [| | | | |k| |] eqn:Hid; try (left; eauto; fail).
  apply strict_eq_VStr in Heq.
  destruct (container w (name table) !! k) as [old|] eqn:Hold; [|left; eauto].
  right. exists k, old. auto.
Qed.

Lemma deleteItemFromDb_outcome table item ensureDataConsistency w :
  (exists e, deleteItemFromDb table item ensureDataConsistency w = (Throw e, w))
  \/ (exists k old,
         prop item "id" = VStr k
         /\ prop item (primaryKey table) = VStr k
         /\ container w (name table) !! k = Some old
         /\ deleteItemFromDb table item ensureDataConsistency w
            = (Return tt,
               set_db w (<[name table := delete k (container w (name table))]> (db w)))).
Proof.
  destruct ensureDataConsistency; [|apply deleteItemFromDb_plain].
  destruct (deleteItemFromDb_checked table item w) as [H| ->];
    [left; exact H | apply deleteItemFromDb_plain].
Qed.

Lemma container_after_delete w table_name k n :
  container (set_db w (<[table_name := delete k (container w table_name)]> (db w))) n
  = if decide (table_name = n) then delete k (container w table_name)
    else container w n.
Proof.
  unfold container, set_db. cbn [db].
  rewrite lookup_insert. destruct (decide (table_name = n)); reflexivity.
Qed.

(** X9: a delete, with or without the consistency check, either fails and
    leaves the world as it was, or removes exactly the one record stored
    under the item's id, which is then also the item's primary-key value;
    no other document of any container is touched. *)
Theorem deleteItemFromDb_removes_only_its_record
    (table : Table) (item : Item) (ensureDataConsistency : bool) (w : World) :
  let deleted := deleteItemFromDb table item ensureDataConsistency w in
  (exists e, deleted = (Throw e, w))
  \/ (exists k old,
         deleted.1 = Return tt
         /\ prop item "id" = VStr k
         /\ prop item (primaryKey table) = VStr k
         /\ container w (name table) !! k = Some old
         /\ container deleted.2 (name table) !! k = None
         /\ forall n k', (n, k') <> (name table, k) ->
                         container deleted.2 n !! k' = container w n !! k').
Proof.
  intros deleted. subst deleted.
  destruct (deleteItemFromDb_outcome table item ensureDataConsistency w)
    as [H|(k & old & Hid & Hpk & Hold & ->)]; [left; exact H|].
  right. exists k, old. cbn [fst snd].
  split; [reflexivity|]. split; [exact Hid|]. split; [exact Hpk|]. split; [exact Hold|].
  split.
  - rewrite container_after_delete, decide_True by reflexivity. apply lookup_delete_eq.
  - intros n k' Hne. rewrite container_after_delete.
    destruct (decide (name table = n)) as [<-|]; [|reflexivity].
    apply lookup_delete_ne. congruence.
Qed.

(** ** Deleting and saving cache entries *)

Lemma apiRequestDeleteCache_absent table req w :
  primaryKey table = "id" ->
  (forall o, downcast table o = o) ->
  container w (name table)
    !! generateCacheId (ApiCacheRequest.api req) (ApiCacheRequest.parameters req) = None ->
  apiRequestDeleteCache table req w = (Throw (DbDeleteError NotFound), w).
Proof.
  intros Hpk Hdown Hdoc. unfold apiRequestDeleteCache, deleteItemFromDb.
  rewrite Hdown, Hpk. cbv zeta. msimpl.
  rewrite !prop_insert_eq. cbn [strict_eq].
  rewrite String.eqb_refl. msimpl.
  unfold item_delete. rewrite Hdoc. reflexivity.
Qed.

(** X10: deleting a cache entry is not idempotent: the delete of a stored
    entry succeeds and removes it, and the same delete issued again fails
    with the delete error NotFound. *)
Theorem apiRequestDeleteCache_twice
    (table : Table) (req : ApiCacheRequest.t) (w : World) (doc : Item) :
  primaryKey table = "id" ->
  (forall o, downcast table o = o) ->
  container w (name table)
    !! generateCacheId (ApiCacheRequest.api req) (ApiCacheRequest.parameters req)
  = Some doc ->
  let w1 := (apiRequestDeleteCache table req w).2 in
  apiRequestDeleteCache table req w = (Return tt, w1)
  /\ apiRequestDeleteCache table req w1 = (Throw (DbDeleteError NotFound), w1).
Proof.
  intros Hpk Hdown Hdoc w1. subst w1.
  rewrite (apiRequestDeleteCache_stored table req w doc Hpk Hdown Hdoc). cbn [snd].
  split; [reflexivity|].
  apply apiRequestDeleteCache_absent; [exact Hpk | exact Hdown |].
  rewrite container_after_delete, decide_True by reflexivity. apply lookup_delete_eq.
Qed.

Lemma apiRequestDeleteCache_twice_witness :
  let w := Examples.world Examples.cached_list 2000 in
  let w1 := (apiRequestDeleteCache Examples.AzureApiRequestCache Examples.vmss_A_list w).2 in
  apiRequestDeleteCache Examples.AzureApiRequestCache Examples.vmss_A_list w
  = (Return tt, w1)
  /\ apiRequestDeleteCache Examples.AzureApiRequestCache Examples.vmss_A_list w1
     = (Throw (DbDeleteError NotFound), w1).
Proof.
  apply (apiRequestDeleteCache_twice Examples.AzureApiRequestCache Examples.vmss_A_list
           (Examples.world Examples.cached_list 2000)
           (Examples.cache_entry "listInstances-vmss-A" "[1,2]" 1000 600000)).
  - reflexivity.
  - intros o. reflexivity.
  - vm_compute. reflexivity.
Defined.










(** ** The decision table of the policy engine *)

Section EngineTable.

Variable table : Table.
Variable JSON_parse : string -> option value.
Variable JSON_stringify : value -> string.

Local Abbreviation engine := (requestWithCaching table JSON_parse JSON_stringify).

(** The engine without a cache read. *)
Lemma engine_ReadApiOnly req dataProcessor w :
  engine req ReadApiOnly dataProcessor w
  = match dataProcessor w with
    | (Return data, w1) => (Return (envelope data false VUndef), w1)
    | (Throw e, w1) => (Throw e, w1)
    end.
Proof.
  unfold requestWithCaching. cbn [ApiCacheOption_eqb negb orb andb]. msimpl.
  destruct (dataProcessor w) as [[data|e] w1]; [|reflexivity].
  destruct (truthy data); reflexivity.
Qed.

(** The engine after a cache read that threw. *)
Lemma engine_read_throws req cacheOption dataProcessor w e :
  cacheOption <> ReadApiOnly ->
  apiRequestReadCache table req w = (Throw e, w) ->
  engine req cacheOption dataProcessor w = (Throw e, w).
Proof.
  intros Hopt Hread. unfold requestWithCaching.
  replace (ApiCacheOption_eqb cacheOption ReadApiOnly) with false
    by (destruct cacheOption; try reflexivity; contradiction Hopt; reflexivity).
  cbn [negb]. apply bind_Throw, bind_Throw, Hread.
Qed.

(** The engine after a cache read that reported a miss. *)
Lemma engine_miss req cacheOption dataProcessor w :
  cacheOption <> ReadApiOnly ->
  apiRequestReadCache table req w = (Return None, w) ->
  engine req cacheOption dataProcessor w
  = match cacheOption with
    | ReadCacheFirst =>
        match dataProcessor w with
        | (Return data, w1) =>
            if truthy data then (Throw TypeError, w1)
            else (Return (envelope data false VNull), w1)
        | (Throw e, w1) => (Throw e, w1)
        end
    | _ => (Return (envelope (VArr []) false VNull), w)
    end.
Proof.
  intros Hopt Hread. unfold requestWithCaching.
  destruct cacheOption; try (contradiction Hopt; reflexivity);
    cbn [ApiCacheOption_eqb negb orb andb];
    rewrite !bind_run, Hread; msimpl; try reflexivity.
  destruct (dataProcessor w) as [[data|e] w1]; [|reflexivity].
  destruct (truthy data); reflexivity.
Qed.

(** The engine after a cache read that returned an entry. *)
Lemma engine_hit req cacheOption dataProcessor w r :
  cacheOption <> ReadApiOnly ->
  apiRequestReadCache table req w = (Return (Some r), w) ->
  engine req cacheOption dataProcessor w
  = match JSON_parse (String (ApiCacheResult.stringifiedData r)) with
    | None => (Throw SyntaxError, w)
    | Some payload =>
        match cacheOption with
        | ReadCacheAndDelete =>
            match apiRequestDeleteCache table req w with
            | (Return _, w1) => (Return (envelope VNull true (VNum 0)), w1)
            | (Throw e, w1) => (Throw e, w1)
            end
        | _ => (Return (envelope (JS.or payload (VArr [])) true
                                 (ApiCacheResult.cacheTime r)), w)
        end
    end.
Proof.
  intros Hopt Hread. unfold requestWithCaching.
  destruct cacheOption; try (contradiction Hopt; reflexivity);
    cbn [ApiCacheOption_eqb negb orb andb];
    rewrite !bind_run, Hread; msimpl; unfold JSON_parse_value;
    destruct (JSON_parse (String (ApiCacheResult.stringifiedData r))) as [payload|];
    msimpl; try reflexivity.
  destruct (apiRequestDeleteCache table req w) as [[[]|e] w1]; reflexivity.
Qed.

End EngineTable.

(** X13: every envelope the engine returns reports the fixed ttl 600,
    whatever ttl the request carries, and its hitCache flag tells exactly
    whether the cache was read and the read returned an entry. *)
Theorem requestWithCaching_envelope
    (table : Table) (JSON_parse : string -> option value)
    (JSON_stringify : value -> string)
    (req : ApiCacheRequest.t) (cacheOption : ApiCacheOption)
    (dataProcessor : M value) (w w' : World) (returned : ApiCache.t) :
  requestWithCaching table JSON_parse JSON_stringify req cacheOption dataProcessor w
  = (Return returned, w') ->
  ApiCache.ttl returned = 600
  /\ ApiCache.hitCache returned
     = match cacheOption, (apiRequestReadCache table req w).1 with
       | ReadApiOnly, _ => false
       | _, Return (Some _) => true
       | _, _ => false
       end.
Proof.
  destruct (ApiCacheOption_eqb cacheOption ReadApiOnly) eqn:Hopt.
  - destruct cacheOption; try discriminate Hopt.
    rewrite engine_ReadApiOnly.
    destruct (dataProcessor w) as [[data|e] w1]; intros [= <- <-]. split; reflexivity.
  - assert (Hne : cacheOption <> ReadApiOnly) by (intros ->; discriminate Hopt).
    destruct (apiRequestReadCache_outcome table req w) as [[[r|] Hread]|[code Hread]].
    + rewrite (engine_hit _ _ _ _ _ _ _ r Hne Hread), Hread. cbn [fst].
      destruct (JSON_parse (String (ApiCacheResult.stringifiedData r))); [|discriminate].
      destruct cacheOption; try (contradiction Hne; reflexivity);
        try (intros [= <- <-]; split; reflexivity).
      destruct (apiRequestDeleteCache table req w) as [[[]|e] w1];
        intros [= <- <-]. split; reflexivity.
    + rewrite (engine_miss _ _ _ _ _ _ _ Hne Hread), Hread. cbn [fst].
      destruct cacheOption; try (contradiction Hne; reflexivity);
        try (intros [= <- <-]; split; reflexivity).
      destruct (dataProcessor w) as [[data|e] w1]; [|discriminate].
      destruct (truthy data); intros [= <- <-]. split; reflexivity.
    + rewrite (engine_read_throws _ _ _ _ _ _ _ _ Hne Hread). discriminate.
Qed.

Lemma requestWithCaching_envelope_witness :
  let returned := envelope (VArr [VNum 1; VNum 2]) true (VNum 1000) in
  ApiCache.ttl returned = 600 /\ ApiCache.hitCache returned = true.
Proof.
  intros returned.
  apply (requestWithCaching_envelope Examples.AzureApiRequestCache Examples.JSON_parse
           Examples.JSON_stringify
           {| ApiCacheRequest.api := "listInstances";
              ApiCacheRequest.parameters := ["vmss-A"];
              ApiCacheRequest.ttl := Some 30 |}
           ReadCacheOnly Examples.producer
           (Examples.world Examples.cached_list 2000)
           (Examples.world Examples.cached_list 2000) returned).
  vm_compute. reflexivity.
Defined.

Lemma container_same_db w1 w2 n : db w1 = db w2 -> container w1 n = container w2 n.
Proof. intros H. unfold container. rewrite H. reflexivity. Qed.

(** X14: the engine never adds or changes a cache document.  With a
    producer that leaves the store alone, whatever the policy and the
    outcome, every document found in the store afterwards was there, the
    same, before: the only change the engine ever makes is a delete. *)
Theorem requestWithCaching_never_writes_an_entry
    (table : Table) (JSON_parse : string -> option value)
    (JSON_stringify : value -> string)
    (req : ApiCacheRequest.t) (cacheOption : ApiCacheOption)
    (dataProcessor : M value) (w : World) :
  (forall w0, db (dataProcessor w0).2 = db w0) ->
  forall n k doc,
    container
      (requestWithCaching table JSON_parse JSON_stringify req cacheOption dataProcessor w).2
      n !! k = Some doc ->
    container w n !! k = Some doc.
Proof.
  intros Hquiet n k doc.
  assert (Hproducer : container (dataProcessor w).2 n = container w n)
    by apply container_same_db, Hquiet.
  destruct (ApiCacheOption_eqb cacheOption ReadApiOnly) eqn:Hopt.
  - destruct cacheOption; try discriminate Hopt.
    rewrite engine_ReadApiOnly.
    destruct (dataProcessor w) as [[data|e] w1]; cbn [snd] in *;
      rewrite Hproducer; auto.
  - assert (Hne : cacheOption <> ReadApiOnly) by (intros ->; discriminate Hopt).
    destruct (apiRequestReadCache_outcome table req w) as [[[r|] Hread]|[code Hread]].
    + rewrite (engine_hit _ _ _ _ _ _ _ r Hne Hread).
      destruct (JSON_parse (String (ApiCacheResult.stringifiedData r))); [|auto].
      destruct cacheOption; try (contradiction Hne; reflexivity); auto.
      unfold apiRequestDeleteCache. cbv zeta.
      match goal with
      | |- context [deleteItemFromDb table ?item false w] =>
          destruct (deleteItemFromDb_outcome table item false w)
            as [[e ->]|(k0 & old & _ & _ & _ & ->)]
      end; cbn [snd]; [auto|].
      rewrite container_after_delete.
      destruct (decide (name table = n)) as [<-|]; [|auto].
      intros H. apply lookup_delete_Some in H as [_ H]. exact H.
    + rewrite (engine_miss _ _ _ _ _ _ _ Hne Hread).
      destruct cacheOption; try (contradiction Hne; reflexivity); auto.
      destruct (dataProcessor w) as [[data|e] w1]; cbn [snd] in *.
      * destruct (truthy data); cbn [snd]; rewrite Hproducer; auto.
      * rewrite Hproducer. auto.
    + rewrite (engine_read_throws _ _ _ _ _ _ _ _ Hne Hread). auto.
Qed.

Lemma requestWithCaching_never_writes_an_entry_witness :
  container (Examples.world Examples.cached_list 700000) "ApiRequestCache"
    !! "listInstances-vmss-A"
  = Some (Examples.cache_entry "listInstances-vmss-A" "[1,2]" 1000 600000).
Proof.
  apply (requestWithCaching_never_writes_an_entry Examples.AzureApiRequestCache
           Examples.JSON_parse Examples.JSON_stringify Examples.vmss_A_list
           ReadCacheFirst Examples.producer (Examples.world Examples.cached_list 700000)).
  - intros w0. reflexivity.
  - vm_compute. reflexivity.
Defined.

(** X15: under ReadApiOnly the engine neither reads nor writes the cache:
    it runs the producer and returns its data as it is, with hitCache false
    and an undefined cache time; a failure of the producer is passed on
    unchanged. *)
Theorem requestWithCaching_ReadApiOnly_bypasses_cache
    (table : Table) (JSON_parse : string -> option value)
    (JSON_stringify : value -> string)
    (req : ApiCacheRequest.t) (dataProcessor : M value) (w : World) :
  requestWithCaching table JSON_parse JSON_stringify req ReadApiOnly dataProcessor w
  = match dataProcessor w with
    | (Return data, w1) => (Return (envelope data false VUndef), w1)
    | (Throw e, w1) => (Throw e, w1)
    end.
Proof. apply engine_ReadApiOnly. Qed.

(** X16: when the cache read reports a miss (the entry is stored but
    expired), ReadCacheOnly, ReadCacheAndDelete and ReadApiFirst return an
    empty array as result, with a null cache time and hitCache false, without
    calling the producer or touching the world; ReadCacheFirst calls the
    producer, passes on its failure, and returns data that is falsy as it
    is, again with a null cache time. *)
Theorem requestWithCaching_on_reported_miss
    (table : Table) (JSON_parse : string -> option value)
    (JSON_stringify : value -> string)
    (req : ApiCacheRequest.t) (cacheOption : ApiCacheOption)
    (dataProcessor : M value) (w : World) :
  cacheOption <> ReadApiOnly ->
  apiRequestReadCache table req w = (Return None, w) ->
  requestWithCaching table JSON_parse JSON_stringify req cacheOption dataProcessor w
  = match cacheOption with
    | ReadCacheFirst =>
        match dataProcessor w with
        | (Return data, w1) =>
            if truthy data then (Throw TypeError, w1)
            else (Return (envelope data false VNull), w1)
        | (Throw e, w1) => (Throw e, w1)
        end
    | _ => (Return (envelope (VArr []) false VNull), w)
    end.
Proof. apply engine_miss. Qed.

Lemma requestWithCaching_on_reported_miss_witness :
  requestWithCaching Examples.AzureApiRequestCache Examples.JSON_parse
    Examples.JSON_stringify Examples.vmss_A_list ReadCacheOnly Examples.producer
    (Examples.world Examples.cached_list 700000)
  = (Return (envelope (VArr []) false VNull), Examples.world Examples.cached_list 700000)
  /\ requestWithCaching Examples.AzureApiRequestCache Examples.JSON_parse
       Examples.JSON_stringify Examples.vmss_A_list ReadCacheFirst (ret VNull)
       (Examples.world Examples.cached_list 700000)
     = (Return (envelope VNull false VNull), Examples.world Examples.cached_list 700000).
Proof.
  split.
  - apply (requestWithCaching_on_reported_miss Examples.AzureApiRequestCache
             Examples.JSON_parse Examples.JSON_stringify Examples.vmss_A_list
             ReadCacheOnly Examples.producer (Examples.world Examples.cached_list 700000));
      [discriminate | vm_compute; reflexivity].
  - apply (requestWithCaching_on_reported_miss Examples.AzureApiRequestCache
             Examples.JSON_parse Examples.JSON_stringify Examples.vmss_A_list
             ReadCacheFirst (ret VNull) (Examples.world Examples.cached_list 700000));
      [discriminate | vm_compute; reflexivity].
Defined.

(** X17: when the cache read returns an entry, ReadCacheFirst,
    ReadCacheOnly and ReadApiFirst return the parsed payload, or an empty
    array when the payload is falsy, with hitCache true and the entry's
    cache time, without calling the producer or touching the world; a
    payload that does not parse makes the engine throw a SyntaxError. *)
Theorem requestWithCaching_on_hit
    (table : Table) (JSON_parse : string -> option value)
    (JSON_stringify : value -> string)
    (req : ApiCacheRequest.t) (cacheOption : ApiCacheOption)
    (dataProcessor : M value) (w : World) (r : ApiCacheResult.t) :
  cacheOption = ReadCacheFirst \/ cacheOption = ReadCacheOnly
  \/ cacheOption = ReadApiFirst ->
  apiRequestReadCache table req w = (Return (Some r), w) ->
  requestWithCaching table JSON_parse JSON_stringify req cacheOption dataProcessor w
  = match JSON_parse (String (ApiCacheResult.stringifiedData r)) with
    | None => (Throw SyntaxError, w)
    | Some payload =>
        (Return (envelope (JS.or payload (VArr [])) true (ApiCacheResult.cacheTime r)), w)
    end.
Proof.
  intros Hopt Hread.
  rewrite (engine_hit table JSON_parse JSON_stringify req cacheOption dataProcessor w r);
    [|destruct Hopt as [-> | [-> | ->]]; discriminate | exact Hread].
  destruct (JSON_parse (String (ApiCacheResult.stringifiedData r))); [|reflexivity].
  destruct Hopt as [-> | [-> | ->]]; reflexivity.
Qed.

Lemma requestWithCaching_on_hit_witness :
  requestWithCaching Examples.AzureApiRequestCache Examples.JSON_parse
    Examples.JSON_stringify Examples.vmss_A_list ReadCacheFirst Examples.producer
    (Examples.world Examples.cached_list 2000)
  = (Return (envelope (VArr [VNum 1; VNum 2]) true (VNum 1000)),
     Examples.world Examples.cached_list 2000).
Proof.
  apply (requestWithCaching_on_hit Examples.AzureApiRequestCache Examples.JSON_parse
           Examples.JSON_stringify Examples.vmss_A_list ReadCacheFirst Examples.producer
           (Examples.world Examples.cached_list 2000)
           (cached_result
              (convertRecord Examples.AzureApiRequestCache
                 (Examples.cache_entry "listInstances-vmss-A" "[1,2]" 1000 600000)))).
  - left. reflexivity.
  - vm_compute. reflexivity.
Defined.

(** ** Describing an instance by its vmId *)

Lemma strict_eq_VStr_r v k : strict_eq v (VStr k) = true -> v = VStr k.
Proof.
  destruct v; cbn; try discriminate. intros H. apply String.eqb_eq in H. congruence.
Qed.

(** What the search returns: nothing, or the first listed object whose
    vmId is the id. *)
Lemma find_by_vmId_Return id list v :
  find_by_vmId id list = Return v ->
  (v = VUndef
   /\ forall fields, VObj fields ∈ list -> field "vmId" fields = VStr id ->
                     id = EmptyString)
  \/ (exists fields, v = VObj fields /\ v ∈ list
                     /\ field "vmId" fields = VStr id /\ id <> EmptyString).
Proof.
  induction list as [|x list IH]; cbn [find_by_vmId].
  - intros [= <-]. left. split; [reflexivity|]. intros fields Hin. inversion Hin.
  - destruct (vmId_matches id x) as [[|]|e] eqn:Hx; [| |discriminate].
    + intros [= <-]. right. destruct x; try discriminate Hx. cbn in Hx.
      injection Hx as Hx. apply andb_prop in Hx as [Htruthy Heq].
      apply strict_eq_VStr_r in Heq. exists fields.
      split; [reflexivity|]. split; [constructor|]. split; [exact Heq|].
      intros ->. rewrite Heq in Htruthy. discriminate Htruthy.
    + intros H. destruct (IH H) as [[-> Hnone]|(fields & -> & Hin & Hid & Hne)].
      * left. split; [reflexivity|]. intros fields Hin Hid.
        apply elem_of_cons in Hin as [<-|Hin]; [|eauto].
        cbn in Hx. injection Hx as Hx. rewrite Hid in Hx. cbn in Hx.
        rewrite String.eqb_refl, andb_true_r in Hx.
        apply negb_false_iff, String.eqb_eq in Hx. exact Hx.
      * right. exists fields. split; [reflexivity|]. split; [constructor; exact Hin|].
        auto.
Qed.

(** X18: [describeInstance] with an id that is not numeric returns either
    undefined, when no listed instance has the id as its vmId, or a listed
    instance whose vmId is the id; the listing has then returned an array,
    and the world is as the listing left it. *)
Theorem describeInstance_by_vmId_result
    (table : Table) (JSON_parse : string -> option value)
    (JSON_stringify : value -> string)
    (virtualMachineScaleSetVMs_list : string -> option value)
    (virtualMachineScaleSetVMs_get : string -> string -> value)
    (scalingGroupName id : string) (cacheOption : ApiCacheOption)
    (w w' : World) (returned : ApiCache.t) :
  isFinite (Number (VStr id)) = false ->
  describeInstance table JSON_parse JSON_stringify virtualMachineScaleSetVMs_list
    virtualMachineScaleSetVMs_get scalingGroupName id cacheOption w
  = (Return returned, w') ->
  exists listResult list,
    listInstances table JSON_parse JSON_stringify virtualMachineScaleSetVMs_list
      scalingGroupName cacheOption w = (Return listResult, w')
    /\ ApiCache.result listResult = VArr list
    /\ ((ApiCache.result returned = VUndef
         /\ forall fields, VObj fields ∈ list -> field "vmId" fields <> VStr id)
        \/ (exists fields, ApiCache.result returned = VObj fields
                           /\ VObj fields ∈ list
                           /\ field "vmId" fields = VStr id)).
Proof.
  intros Hid Hdescribe.
  destruct (describeInstance_by_vmId table JSON_parse JSON_stringify
              virtualMachineScaleSetVMs_list virtualMachineScaleSetVMs_get
              scalingGroupName id cacheOption w Hid) as [Hw Hfind].
  rewrite Hdescribe in Hw, Hfind. cbn [fst snd] in Hw, Hfind.
  destruct (Hfind returned eq_refl) as (listResult & list & Hlist & Hresult & Hfound & _).
  exists listResult, list. split; [|split; [exact Hresult|]].
  - destruct (listInstances table JSON_parse JSON_stringify virtualMachineScaleSetVMs_list
                scalingGroupName cacheOption w) as [out w1].
    cbn [fst snd] in Hw, Hlist. subst. reflexivity.
  - apply find_by_vmId_Return in Hfound
      as [[Hundef Hnone]|(fields & Hobj & Hin & Hvm & _)].
    + left. split; [exact Hundef|]. intros fields Hin Hvm.
      specialize (Hnone fields Hin Hvm). subst id. discriminate Hid.
    + right. exists fields. rewrite <- Hobj. auto.
Qed.

Lemma describeInstance_by_vmId_result_witness :
  exists listResult list,
    listInstances Examples.AzureApiRequestCache Examples.JSON_parse
      Examples.JSON_stringify Examples.vmss_list "vmss-A" ReadApiOnly (Examples.world ∅ 0)
    = (Return listResult, log_call (VmssList "vmss-A") (Examples.world ∅ 0))
    /\ ApiCache.result listResult = VArr list
    /\ ((Examples.vm "vm-guid-xyz" = VUndef
         /\ forall fields, VObj fields ∈ list -> field "vmId" fields <> VStr "vm-guid-xyz")
        \/ (exists fields, Examples.vm "vm-guid-xyz" = VObj fields
                           /\ VObj fields ∈ list
                           /\ field "vmId" fields = VStr "vm-guid-xyz")).
Proof.
  apply (describeInstance_by_vmId_result Examples.AzureApiRequestCache Examples.JSON_parse
           Examples.JSON_stringify Examples.vmss_list Examples.vmss_get
           "vmss-A" "vm-guid-xyz" ReadApiOnly (Examples.world ∅ 0)
           (log_call (VmssList "vmss-A") (Examples.world ∅ 0))
           (envelope (Examples.vm "vm-guid-xyz") false VUndef));
    vm_compute; reflexivity.
Defined.

(** X19: [describeInstance] with an id that is not numeric throws a
    TypeError, after whatever the listing did, whenever the listing's result
    is not an array: so under ReadCacheAndDelete on a valid entry (the entry
    is deleted and the result is null), and when the origin answers a list
    call with nothing. *)
Theorem describeInstance_by_vmId_without_list
    (table : Table) (JSON_parse : string -> option value)
    (JSON_stringify : value -> string)
    (virtualMachineScaleSetVMs_list : string -> option value)
    (virtualMachineScaleSetVMs_get : string -> string -> value)
    (scalingGroupName id : string) (cacheOption : ApiCacheOption)
    (w w1 : World) (listResult : ApiCache.t) :
  isFinite (Number (VStr id)) = false ->
  listInstances table JSON_parse JSON_stringify virtualMachineScaleSetVMs_list
    scalingGroupName cacheOption w = (Return listResult, w1) ->
  (forall list, ApiCache.result listResult <> VArr list) ->
  describeInstance table JSON_parse JSON_stringify virtualMachineScaleSetVMs_list
    virtualMachineScaleSetVMs_get scalingGroupName id cacheOption w
  = (Throw TypeError, w1).
Proof.
  intros Hid Hlist Hresult. unfold describeInstance. rewrite Hid.
  rewrite (bind_Return _ _ _ _ _ Hlist).
  destruct (ApiCache.result listResult) as [| | | | | |list|] eqn:R;
    try reflexivity.
  contradiction (Hresult list). reflexivity.
Qed.

Lemma describeInstance_by_vmId_without_list_witness :
  let w := Examples.world Examples.cached_list 2000 in
  describeInstance Examples.AzureApiRequestCache Examples.JSON_parse
    Examples.JSON_stringify Examples.vmss_list Examples.vmss_get
    "vmss-A" "vm-guid-xyz" ReadCacheAndDelete w
  = (Throw TypeError,
     set_db w (<["ApiRequestCache" :=
                  delete "listInstances-vmss-A" (container w "ApiRequestCache")]> (db w))).
Proof.
  intros w.
  apply (describeInstance_by_vmId_without_list Examples.AzureApiRequestCache
           Examples.JSON_parse Examples.JSON_stringify Examples.vmss_list
           Examples.vmss_get "vmss-A" "vm-guid-xyz" ReadCacheAndDelete w _
           (envelope VNull true (VNum 0))).
  - vm_compute. reflexivity.
  - vm_compute. reflexivity.
  - intros list. discriminate.
Defined.

(** ** Listing network interfaces *)

(** X20: the ttl argument of [listNetworkInterfaces], when it is not zero,
    decides how long a stored entry counts: under ReadCacheOnly an entry
    written at [c] is returned exactly while [c + ttl*1000 > now], and is
    answered by an empty array otherwise; the envelope reports the ttl 600
    all the same, and no call is made. *)
Theorem listNetworkInterfaces_ttl
    (table : Table) (JSON_parse : string -> option value)
    (JSON_stringify : value -> string)
    (nics : string -> string -> M (option value))
    (scalingGroupName : string) (id ttl : Z) (w : World)
    (item : Item) (c : Z) (payload : value) :
  ttl <> 0 ->
  getItemFromDb table
    [ {| key := primaryKey table;
         value_of := VStr (generateCacheId "listNetworkInterfaces"
                                           [scalingGroupName; pretty id]) |} ] w
  = (Return item, w) ->
  prop item "cacheTime" = VNum c ->
  JSON_parse (String (prop item "res")) = Some payload ->
  listNetworkInterfaces table JSON_parse JSON_stringify nics
    scalingGroupName id ReadCacheOnly ttl w
  = (Return (if Z.ltb (now w) (c + ttl * 1000)
             then envelope (JS.or payload (VArr [])) true (VNum c)
             else envelope (VArr []) false VNull), w).
Proof.
  intros Httl Hget Hc Hparse. unfold listNetworkInterfaces. cbv zeta.
  set (req := {| ApiCacheRequest.api := "listNetworkInterfaces";
                 ApiCacheRequest.parameters := [scalingGroupName; String (VNum id)];
                 ApiCacheRequest.ttl := Some ttl |}).
  assert (Httl' : timeToLive req item = VNum ttl).
  { unfold timeToLive, req. cbn [ApiCacheRequest.ttl optional_number].
    unfold JS.or. cbn [truthy].
    replace (Z.eqb ttl 0) with false by (symmetry; apply Z.eqb_neq; exact Httl).
    reflexivity. }
  assert (Hread := apiRequestReadCache_stored table req w item c ttl Hget Hc Httl').
  destruct (Z.ltb (now w) (c + ttl * 1000)).
  - rewrite (engine_hit table JSON_parse JSON_stringify req ReadCacheOnly _ w
               (cached_result item)); [|discriminate|exact Hread].
    cbn [cached_result ApiCacheResult.stringifiedData ApiCacheResult.cacheTime].
    rewrite Hparse, Hc. reflexivity.
  - rewrite (engine_miss table JSON_parse JSON_stringify req ReadCacheOnly _ w);
      [reflexivity|discriminate|exact Hread].
Qed.

Lemma listNetworkInterfaces_ttl_witness :
  let w := Examples.world MoreExamples.cached_nics 30999 in
  listNetworkInterfaces Examples.AzureApiRequestCache Examples.JSON_parse
    Examples.JSON_stringify MoreExamples.nics "vmss-A" 3 ReadCacheOnly 30 w
  = (Return (envelope (VArr [VNum 1; VNum 2]) true (VNum 1000)), w)
  /\ listNetworkInterfaces Examples.AzureApiRequestCache Examples.JSON_parse
       Examples.JSON_stringify MoreExamples.nics "vmss-A" 3 ReadCacheOnly 30
       (Examples.world MoreExamples.cached_nics 31000)
     = (Return (envelope (VArr []) false VNull),
        Examples.world MoreExamples.cached_nics 31000).
Proof.
  intros w. split.
  - apply (listNetworkInterfaces_ttl Examples.AzureApiRequestCache Examples.JSON_parse
             Examples.JSON_stringify MoreExamples.nics "vmss-A" 3 30 w
             (convertRecord Examples.AzureApiRequestCache
                (Examples.cache_entry "listNetworkInterfaces-vmss-A-3" "[1,2]" 1000 600000))
             1000 (VArr [VNum 1; VNum 2]));
      [discriminate | vm_compute; reflexivity ..].
  - apply (listNetworkInterfaces_ttl Examples.AzureApiRequestCache Examples.JSON_parse
             Examples.JSON_stringify MoreExamples.nics "vmss-A" 3 30
             (Examples.world MoreExamples.cached_nics 31000)
             (convertRecord Examples.AzureApiRequestCache
                (Examples.cache_entry "listNetworkInterfaces-vmss-A-3" "[1,2]" 1000 600000))
             1000 (VArr [VNum 1; VNum 2]));
      [discriminate | vm_compute; reflexivity ..].
Defined.

(** ** Numeric instance ids *)

Lemma decimal_digit_cases c :
  decimal_digit c = true ->
  c = "0"%char \/ c = "1"%char \/ c = "2"%char \/ c = "3"%char \/ c = "4"%char
  \/ c = "5"%char \/ c = "6"%char \/ c = "7"%char \/ c = "8"%char \/ c = "9"%char.
Proof.
  destruct c as [[] [] [] [] [] [] [] []]; vm_compute; intros H;
    try discriminate H; tauto.
Qed.

Lemma decimal_digit_value c :
  decimal_digit c = true -> exists d, digit_of 10 c = Some d /\ 0 <= d <= 9.
Proof.
  intros H. apply decimal_digit_cases in H.
  repeat (destruct H as [->|H]); [..|subst c]; eexists;
    (split; [vm_compute; reflexivity|lia]).
Qed.

Lemma decimal_digit_not_space c : decimal_digit c = true -> is_space c = false.
Proof.
  intros H. apply decimal_digit_cases in H.
  repeat (destruct H as [->|H]); [..|subst c]; reflexivity.
Qed.

(** A run of digits is read to its end, as the number it spells. *)
Lemma read_digits_all l acc count :
  forallb decimal_digit l = true ->
  exists v,
    read_digits 10 acc count l
    = (acc * 10 ^ Z.of_nat (length l) + v, count + Z.of_nat (length l), [])
    /\ 0 <= v < 10 ^ Z.of_nat (length l).
Proof.
  revert acc count. induction l as [|c l IH]; intros acc count H.
  - exists 0. cbn. split; [f_equal; f_equal; lia | lia].
  - cbn [forallb] in H. apply andb_prop in H as [Hc Hl].
    destruct (decimal_digit_value c Hc) as (d & Hd & Hrange).
    destruct (IH (acc * 10 + d) (count + 1) Hl) as (v & Hv & Hvr).
    exists (d * 10 ^ Z.of_nat (length l) + v).
    cbn [read_digits length]. rewrite Hd, Hv.
    rewrite Nat2Z.inj_succ, Z.pow_succ_r by lia.
    split; [f_equal; f_equal; lia | nia].
Qed.

Lemma drop_spaces_digit c l :
  decimal_digit c = true -> drop_spaces (c :: l) = c :: l.
Proof. intros H. cbn. rewrite (decimal_digit_not_space c H). reflexivity. Qed.

Lemma trim_digits l : forallb decimal_digit l = true -> trim l = l.
Proof.
  intros H. unfold trim. destruct l as [|c l]; [reflexivity|].
  cbn [forallb] in H. apply andb_prop in H as [Hc Hl].
  rewrite (drop_spaces_digit c l Hc).
  assert (Hrev : forallb decimal_digit (rev (c :: l)) = true).
  { apply forallb_forall. intros x Hx. apply in_rev in Hx.
    destruct Hx as [<-|Hx]; [exact Hc|].
    rewrite forallb_forall in Hl. apply Hl, Hx. }
  destruct (rev (c :: l)) as [|x r] eqn:E.
  - apply (f_equal (@length ascii)) in E. rewrite length_rev in E. discriminate E.
  - cbn [forallb] in Hrev. apply andb_prop in Hrev as [Hx _].
    rewrite (drop_spaces_digit x r Hx), <- E. apply rev_involutive.
Qed.

Lemma signed_decimal_digits l :
  l <> [] -> forallb decimal_digit l = true -> (length l <= 308)%nat ->
  exists v, signed_decimal l = NumDec v 0.
Proof.
  intros Hne Hall Hlen.
  destruct (read_digits_all l 0 0 Hall) as (v & Hread & Hv).
  destruct l as [|c l]; [contradiction Hne; reflexivity|].
  assert (Hc : decimal_digit c = true) by (cbn in Hall; apply andb_prop in Hall; tauto).
  assert (Hbig : v < 2 ^ 1024 - 2 ^ 970).
  { assert (10 ^ Z.of_nat (length (c :: l)) <= 10 ^ 308)
      by (apply Z.pow_le_mono_r; lia).
    assert (10 ^ 308 < 2 ^ 1024 - 2 ^ 970) by (vm_compute; reflexivity).
    lia. }
  exists v. unfold signed_decimal.
  assert (Hbody : (let '(sign, body) :=
                     match c :: l with
                     | "+"%char :: r => (1, r)
                     | "-"%char :: r => (-1, r)
                     | _ => (1, c :: l)
                     end in
                   (sign, body)) = (1, c :: l)).
  { apply decimal_digit_cases in Hc.
    repeat (destruct Hc as [->|Hc]); [..|subst c]; reflexivity. }
  assert (Hinf : String.eqb (string_of_list_ascii (c :: l)) "Infinity" = false).
  { apply decimal_digit_cases in Hc.
    repeat (destruct Hc as [->|Hc]); [..|subst c]; reflexivity. }
  replace (match c :: l with
           | "+"%char :: r => (1, r)
           | "-"%char :: r => (-1, r)
           | _ => (1, c :: l)
           end) with (1, c :: l)
    by (symmetry; revert Hbody; destruct (match c :: l with
                                          | "+"%char :: r => (1, r)
                                          | "-"%char :: r => (-1, r)
                                          | _ => (1, c :: l)
                                          end); exact (fun H => H)).
  rewrite Hinf. unfold decimal_literal. rewrite Hread.
  replace (Z.ltb 0 (0 + Z.of_nat (length (c :: l)))) with true
    by (symmetry; apply Z.ltb_lt; cbn [length]; lia).
  cbn [exponent_part]. unfold classify, rounds_to_infinity.
  cbn [Z.leb Z.compare]. rewrite Z.pow_0_r.
  replace (Z.leb (2 ^ 1024 - 2 ^ 970) (Z.abs (1 * (0 * 10 ^ Z.of_nat (length (c :: l)) + v)) * 1))
    with false by (symmetry; apply Z.leb_gt; lia).
  f_equal. lia.
Qed.

(** A non-empty text of at most 308 decimal digits reads as a finite
    number. *)
Lemma digits_are_finite (id : string) :
  id <> EmptyString ->
  forallb decimal_digit (list_ascii_of_string id) = true ->
  (String.length id <= 308)%nat ->
  isFinite (Number (VStr id)) = true.
Proof.
  intros Hne Hall Hlen. cbn [Number]. unfold StringToNumber.
  rewrite (trim_digits _ Hall).
  assert (Hl : list_ascii_of_string id <> []).
  { destruct id; [contradiction Hne; reflexivity | discriminate]. }
  assert (Hlen' : (length (list_ascii_of_string id) <= 308)%nat).
  { clear -Hlen. revert Hlen. generalize 308%nat.
    induction id as [|c id IH]; intros n H; cbn in *; [lia|].
    destruct n; [lia|]. apply le_n_S, IH. lia. }
  destruct (signed_decimal_digits _ Hl Hall Hlen') as [v Hv].
  destruct (list_ascii_of_string id) as [|c [|p r]] eqn:E;
    [contradiction Hl; reflexivity
    | destruct c as [[] [] [] [] [] [] [] []]; cbv beta iota; rewrite Hv; reflexivity |].
  assert (Hp : decimal_digit p = true)
    by (cbn in Hall; apply andb_prop in Hall as [_ Hall];
        apply andb_prop in Hall; tauto).
  assert (Hprefix : Ascii.eqb p "x" || Ascii.eqb p "X" = false
                    /\ Ascii.eqb p "o" || Ascii.eqb p "O" = false
                    /\ Ascii.eqb p "b" || Ascii.eqb p "B" = false).
  { apply decimal_digit_cases in Hp.
    repeat (destruct Hp as [->|Hp]); [..|subst p]; repeat split; reflexivity. }
  destruct Hprefix as (Hx & Ho & Hb).
  destruct c as [[] [] [] [] [] [] [] []]; cbv beta iota;
    rewrite ?Hx, ?Ho, ?Hb; cbv beta iota; rewrite Hv; reflexivity.
Qed.

(** X21: an id of one to 308 decimal digits is numeric for
    [describeInstance]: it is looked up by the single-instance call under
    the cache entry of [describeInstance], not through the listing. *)
Theorem describeInstance_decimal_id
    (table : Table) (JSON_parse : string -> option value)
    (JSON_stringify : value -> string)
    (virtualMachineScaleSetVMs_list : string -> option value)
    (virtualMachineScaleSetVMs_get : string -> string -> value)
    (scalingGroupName id : string) (cacheOption : ApiCacheOption) (w : World) :
  id <> EmptyString ->
  forallb decimal_digit (list_ascii_of_string id) = true ->
  (String.length id <= 308)%nat ->
  describeInstance table JSON_parse JSON_stringify virtualMachineScaleSetVMs_list
    virtualMachineScaleSetVMs_get scalingGroupName id cacheOption w
  = requestWithCaching table JSON_parse JSON_stringify
      (describe_request scalingGroupName id) cacheOption
      (fun w0 => (Return (virtualMachineScaleSetVMs_get scalingGroupName id),
                  log_call (VmssGet scalingGroupName id) w0))
      w.
Proof.
  intros Hne Hall Hlen. unfold describeInstance.
  rewrite (digits_are_finite id Hne Hall Hlen). reflexivity.
Qed.

Lemma describeInstance_decimal_id_witness :
  describeInstance Examples.AzureApiRequestCache Examples.JSON_parse
    Examples.JSON_stringify Examples.vmss_list Examples.vmss_get
    "vmss-A" "0042" ReadApiOnly (Examples.world ∅ 0)
  = (Return (envelope (Examples.vm "vm-guid-xyz") false VUndef),
     log_call (VmssGet "vmss-A" "0042") (Examples.world ∅ 0)).
Proof.
  rewrite (describeInstance_decimal_id Examples.AzureApiRequestCache Examples.JSON_parse
             Examples.JSON_stringify Examples.vmss_list Examples.vmss_get
             "vmss-A" "0042" ReadApiOnly (Examples.world ∅ 0));
    [reflexivity | discriminate | reflexivity | vm_compute; lia].
Defined.

(** ** Writing a cache entry and reading it back *)



(** ** Reading one record *)

(** X23: [getItemFromDb] looks only at the value of the first partition key:
    neither the name of that key nor any further key matters.  It never
    changes the world and never returns an absent record: it returns the
    conversion of the document stored under that value, and throws a read
    error otherwise, which is NotFound whenever the value is a string under
    which nothing is stored. *)
Theorem getItemFromDb_by_first_key_value
    (table : Table) (pk : KeyValue) (rest : list KeyValue) (w : World) :
  let got := getItemFromDb table (pk :: rest) w in
  got.2 = w
  /\ (forall kn, got = getItemFromDb table [ {| key := kn; value_of := value_of pk |} ] w)
  /\ ((exists k doc,
          value_of pk = VStr k
          /\ container w (name table) !! k = Some doc
          /\ got.1 = Return (convertRecord table doc))
      \/ (exists code,
             got.1 = Throw (DbReadError code)
             /\ forall k, value_of pk = VStr k ->
                          code = NotFound /\ container w (name table) !! k = None)).
Proof.
  intros got.
  assert (Hsame : forall kn,
             got = getItemFromDb table [ {| key := kn; value_of := value_of pk |} ] w)
    by (intros kn; reflexivity).
  split; [|split; [exact Hsame|]].
  - rewrite (Hsame (key pk)).
    destruct (getItemFromDb_outcome table (key pk) (value_of pk) w)
      as [(k & doc & _ & _ & ->)|[code ->]]; reflexivity.
  - rewrite (Hsame (key pk)).
    destruct (value_of pk) as [| | | | |k| |] eqn:Hv;
      try (right; exists UnexpectedResponse; split; [reflexivity | discriminate]).
    destruct (container w (name table) !! k) as [doc|] eqn:E.
    + left. exists k, doc.
      rewrite (getItemFromDb_found table (key pk) k w doc E). auto.
    + right. exists NotFound.
      rewrite (getItemFromDb_missing table (key pk) k w E).
      split; [reflexivity|]. intros k' [= <-]. auto.
Qed.
